(** * Provider registry of scira-mcp-chat (ai/providers.ts, ai/types.ts)

    A shallow embedding of the provider-registry module: the credential
    resolver [getApiKey], the provider clients, the model registry
    [languageModels], the metadata catalog [modelDetails], the storage
    listener and the exported values [model], [MODELS], [defaultModel].

    JavaScript values are modelled as follows.
    - A string is a [string]; [undefined] and [null] are [None].
    - An object literal is an insertion-ordered association list built with
      [obj_set]; [Object.keys] is [Object_keys].
    - A computation is a value of [JS A]: the list of effects it performed
      and either the value it completed with or the exception it threw.
    - The packages "ai" and "@ai-sdk/*" are outside the repository; the module
      is written against the interface [SDK], which says only that their
      functions return or throw. *)

From Stdlib Require Import Strings.String Strings.Ascii Lists.List Bool.Bool.
From Stdlib Require Import Arith.PeanoNat NArith.NArith micromega.Lia.
Import ListNotations.

Local Open Scope string_scope.
Local Open Scope list_scope.

(* ================================================================== *)
(** ** JavaScript strings *)

Module JsString.

(** [strip_prefix p s] is the rest of [s] after the prefix [p], if [s]
    starts with [p]. *)
Fixpoint strip_prefix (p s : string) : option string :=
  match p with
  | EmptyString => Some s
  | String a p' =>
      match s with
      | EmptyString => None
      | String b s' => if Ascii.eqb a b then strip_prefix p' s' else None
      end
  end.

(** [String.prototype.includes]: [includes s pat] holds when [pat] occurs
    somewhere in [s]. *)
Fixpoint includes (s pat : string) : bool :=
  match strip_prefix pat s with
  | Some _ => true
  | None =>
      match s with
      | EmptyString => false
      | String _ s' => includes s' pat
      end
  end.

(** [split_on pat s] cuts [s] at the first occurrence of [pat]. *)
Fixpoint split_on (pat s : string) : option (string * string) :=
  match strip_prefix pat s with
  | Some rest => Some (EmptyString, rest)
  | None =>
      match s with
      | EmptyString => None
      | String c s' =>
          match split_on pat s' with
          | Some (before, rest) => Some (String c before, rest)
          | None => None
          end
      end
  end.

(** The character [c] does not occur in [s]. *)
Fixpoint lacks (c : ascii) (s : string) : bool :=
  match s with
  | EmptyString => true
  | String a s' => negb (Ascii.eqb a c) && lacks c s'
  end.

(** ToBoolean on a string or [undefined]/[null]: only a non-empty string
    is truthy. *)
Definition truthy (v : option string) : bool :=
  match v with
  | Some s => negb (String.eqb s EmptyString)
  | None => false
  end.

(** [v || undefined]. *)
Definition or_undefined (v : option string) : option string :=
  if truthy v then v else None.

End JsString.
Import JsString.

(* ================================================================== *)
(** ** JavaScript objects with string keys *)

Module JsObject.

Section Obj.
Context {V : Type}.

Definition Obj := list (string * V).

Fixpoint get (o : Obj) (k : string) : option V :=
  match o with
  | [] => None
  | (k', v) :: o' => if String.eqb k' k then Some v else get o' k
  end.

(** Property definition: an existing key keeps its position and takes
    the new value, a new key goes to the end. *)
Fixpoint obj_set (o : Obj) (k : string) (v : V) : Obj :=
  match o with
  | [] => [(k, v)]
  | (k', v') :: o' =>
      if String.eqb k' k then (k', v) :: o' else (k', v') :: obj_set o' k v
  end.

(** The object literal [{ k1: v1, ..., kn: vn }]. *)
Definition literal (props : list (string * V)) : Obj :=
  fold_left (fun o kv => obj_set o (fst kv) (snd kv)) props [].

(** Number of properties of [o] named [k]. *)
Definition occurrences (o : Obj) (k : string) : nat :=
  length (filter (fun kv => String.eqb (fst kv) k) o).

End Obj.
Arguments Obj V : clear implicits.

Definition is_digit (c : ascii) : bool :=
  let n := nat_of_ascii c in (48 <=? n)%nat && (n <=? 57)%nat.

Fixpoint digits_value (acc : N) (s : string) : option N :=
  match s with
  | EmptyString => Some acc
  | String c s' =>
      if is_digit c
      then digits_value (10 * acc + N.of_nat (nat_of_ascii c - 48))%N s'
      else None
  end.

(** The value of [k] when [k] is the canonical decimal form of an array
    index (an integer below 2^32 - 1): such keys are listed first by
    [Object.keys]. *)
Definition array_index (k : string) : option N :=
  match k with
  | EmptyString => None
  | String c rest =>
      if Ascii.eqb c "0" && negb (String.eqb rest EmptyString) then None
      else
        match digits_value 0%N k with
        | Some n => if (n <? 4294967295)%N then Some n else None
        | None => None
        end
  end.

Fixpoint insert_sorted (x : N * string) (l : list (N * string))
  : list (N * string) :=
  match l with
  | [] => [x]
  | y :: l' =>
      if (fst x <=? fst y)%N then x :: l else y :: insert_sorted x l'
  end.

Definition index_keys {V} (o : Obj V) : list (N * string) :=
  fold_right
    (fun kv acc =>
       match array_index (fst kv) with
       | Some n => insert_sorted (n, fst kv) acc
       | None => acc
       end) [] o.

Definition string_keys {V} (o : Obj V) : list string :=
  map fst
    (filter (fun kv => match array_index (fst kv) with
                       | Some _ => false
                       | None => true
                       end) o).

(** [Object.keys(o)]: array-index keys in ascending order, then the other
    keys in insertion order. *)
Definition Object_keys {V} (o : Obj V) : list string :=
  map snd (index_keys o) ++ string_keys o.

End JsObject.
Import JsObject.

(* ================================================================== *)
(** ** Computations: effects and exceptions *)

Inductive Exn : Type :=
| Error (message : string).

Inductive Completion (A : Type) : Type :=
| Normal (a : A)
| Throw (e : Exn).
Arguments Normal {A} a.
Arguments Throw {A} e.

(** What the module does to its host. *)
Inductive Effect : Type :=
| EnvRead (key : string)            (* process.env[key] *)
| StoreRead (key : string)          (* window.localStorage.getItem(key) *)
| AddEventListener (type : string)  (* window.addEventListener(type, ...) *)
| Reload.                           (* window.location.reload() *)

Definition JS (A : Type) : Type := list Effect * Completion A.

Definition ret {A} (a : A) : JS A := ([], Normal a).

Definition bind {A B} (m : JS A) (f : A -> JS B) : JS B :=
  match m with
  | (l, Normal a) => let (l', r) := f a in (l ++ l', r)
  | (l, Throw e) => (l, Throw e)
  end.

Definition perform (e : Effect) : JS unit := ([e], Normal tt).

Definition throw {A} (e : Exn) : JS A := ([], Throw e).

(** A call into a package: it returns or throws, and touches nothing of
    this module's host. *)
Definition call {A} (c : Completion A) : JS A := ([], c).

Definition effects {A} (m : JS A) : list Effect := fst m.
Definition completion {A} (m : JS A) : Completion A := snd m.

Declare Scope js_scope.
Delimit Scope js_scope with js.
Notation "x <- m ;; k" := (bind m (fun x => k))
  (at level 61, m at next level, right associativity) : js_scope.
Notation "m ;;; k" := (bind m (fun _ => k))
  (at level 61, right associativity) : js_scope.
Local Open Scope js_scope.

(* ================================================================== *)
(** ** The host: process environment and browser window *)

(** [Storage.getItem] gives the stored string or [null]. *)
Record Storage : Type := { getItem : string -> option string }.

(** Reading [window.localStorage] gives a [Storage], gives [undefined] on
    a window that has no such property, or throws (a browser that denies
    access to site data raises a SecurityError from the getter). *)
Record Window : Type := { localStorage : Completion (option Storage) }.

(** [process_env key] is [process.env[key]], a string or [undefined];
    [process.env] itself is always an object, as the module assumes by
    reading it unguarded.  [window] is [None] where
    [typeof window === 'undefined']. *)
Record Host : Type := {
  process_env : string -> option string;
  window : option Window
}.

Definition read_env (h : Host) (key : string) : JS (option string) :=
  perform (EnvRead key) ;;; ret (process_env h key).

(** [window.localStorage.getItem(key)], with nothing around it to catch:
    the getter's exception propagates, and calling [getItem] on [undefined]
    raises a TypeError. *)
Definition read_store (w : Window) (key : string) : JS (option string) :=
  match localStorage w with
  | Normal (Some storage) =>
      perform (StoreRead key) ;;; ret (getItem storage key)
  | Normal None =>
      throw (Error "TypeError: window.localStorage is undefined")
  | Throw e => throw e
  end.

(* ================================================================== *)
(** ** Credential resolver *)

(** [getApiKey]: the environment variable first, then localStorage. *)
Definition getApiKey (h : Host) (key : string) : JS (option string) :=
  c <- read_env h key ;;
  if truthy c then
    v <- read_env h key ;;
    ret (or_undefined v)
  else
    match window h with
    | Some w =>
        v <- read_store w key ;;
        ret (or_undefined v)
    | None => ret None
    end.

(* ================================================================== *)
(** ** ai/types.ts: Google provider options *)

Inductive HarmCategory : Type :=
| HARM_CATEGORY_DANGEROUS_CONTENT
| HARM_CATEGORY_HATE_SPEECH
| HARM_CATEGORY_HARASSMENT
| HARM_CATEGORY_SEXUALLY_EXPLICIT.

Inductive HarmBlockThreshold : Type :=
| BLOCK_LOW_AND_ABOVE
| BLOCK_MEDIUM_AND_ABOVE
| BLOCK_HIGH_AND_ABOVE
| BLOCK_ONLY_HIGH.

Record SafetySetting : Type := {
  category : HarmCategory;
  threshold : HarmBlockThreshold
}.

Record ThinkingConfig : Type := { thinkingBudget : N }.

Inductive ResponseModality : Type := TEXT | IMAGE.

Record GoogleProviderOptions : Type := {
  responseModalities : list ResponseModality;
  thinkingConfig : ThinkingConfig;
  safetySettings : list SafetySetting
}.

Record ProviderOptions : Type := { google : GoogleProviderOptions }.

(* ================================================================== *)
(** ** The packages the module imports *)

(** Argument of [extractReasoningMiddleware]. *)
Record MiddlewareSettings : Type := { tagName : string }.

(** Argument of [createOpenAI], [createAnthropic], [createGroq],
    [createXai] and [createGoogleGenerativeAI]. *)
Record ClientSettings : Type := {
  apiKey : option string;
  baseURL : option string
}.

(** Argument of [wrapLanguageModel], as the module writes it. *)
Record WrapArgs (M MW : Type) : Type := {
  wrap_model : M;
  wrap_middleware : MW;
  wrap_providerOptions : option ProviderOptions
}.
Arguments wrap_model {M MW} _.
Arguments wrap_middleware {M MW} _.
Arguments wrap_providerOptions {M MW} _.

(** The imported functions.  [model_of c v] is the call [c(v)] of a
    provider client on a backend version string. *)
Class SDK : Type := {
  Middleware : Type;
  Client : Type;
  LanguageModel : Type;
  Provider : Type;
  extractReasoningMiddleware : MiddlewareSettings -> Completion Middleware;
  createOpenAI : ClientSettings -> Completion Client;
  createAnthropic : ClientSettings -> Completion Client;
  createGroq : ClientSettings -> Completion Client;
  createXai : ClientSettings -> Completion Client;
  createGoogleGenerativeAI : ClientSettings -> Completion Client;
  model_of : Client -> string -> Completion LanguageModel;
  wrapLanguageModel :
    WrapArgs LanguageModel Middleware -> Completion LanguageModel;
  customProvider : Obj LanguageModel -> Completion Provider
}.

(* ================================================================== *)
(** ** The module *)

Record ModelInfo : Type := {
  provider : string;
  name : string;
  description : string;
  apiVersion : string;
  capabilities : list string
}.

(** The bindings of the module once its top level has run. *)
Record Scope `{SDK} : Type := {
  middleware : Middleware;
  openaiClient : Client;
  anthropicClient : Client;
  groqClient : Client;
  xaiClient : Client;
  googleClient : Client;
  languageModels : Obj LanguageModel;
  modelDetails : Obj ModelInfo;
  model : Provider;
  MODELS : list string;
  defaultModel : string
}.

(** The storage event, as far as the listener can see it. *)
Record StorageEvent : Type := {
  key : option string;
  oldValue : option string;
  newValue : option string;
  url : string
}.

(** The listener registered for ['storage']:
    [if (event.key?.includes('API_KEY')) window.location.reload()]. *)
Definition storageListener (event : StorageEvent) : JS unit :=
  if match key event with
     | Some k => includes k "API_KEY"
     | None => false
     end
  then perform Reload
  else ret tt.

Section Providers.
Context `{sdk : SDK}.

(** [const middleware = extractReasoningMiddleware({ tagName: 'think' })]. *)
Definition init_middleware : JS Middleware :=
  call (extractReasoningMiddleware {| tagName := "think" |}).

(** [const openaiClient = createOpenAI({ apiKey: getApiKey('OPENAI_API_KEY') })]. *)
Definition init_openaiClient (h : Host) : JS Client :=
  k <- getApiKey h "OPENAI_API_KEY" ;;
  call (createOpenAI {| apiKey := k; baseURL := None |}).

(** [const anthropicClient = createAnthropic({ apiKey: getApiKey('ANTHROPIC_API_KEY') })]. *)
Definition init_anthropicClient (h : Host) : JS Client :=
  k <- getApiKey h "ANTHROPIC_API_KEY" ;;
  call (createAnthropic {| apiKey := k; baseURL := None |}).

(** [const groqClient = createGroq({ apiKey: getApiKey('GROQ_API_KEY') })]. *)
Definition init_groqClient (h : Host) : JS Client :=
  k <- getApiKey h "GROQ_API_KEY" ;;
  call (createGroq {| apiKey := k; baseURL := None |}).

(** [const xaiClient = createXai({ apiKey: getApiKey('XAI_API_KEY') })]. *)
Definition init_xaiClient (h : Host) : JS Client :=
  k <- getApiKey h "XAI_API_KEY" ;;
  call (createXai {| apiKey := k; baseURL := None |}).

(** [const googleClient = createGoogleGenerativeAI({ apiKey: ..., baseURL })]. *)
Definition init_googleClient (h : Host) : JS Client :=
  k <- getApiKey h "GOOGLE_GENERATIVE_AI_API_KEY" ;;
  call (createGoogleGenerativeAI
          {| apiKey := k;
             baseURL :=
               Some "https://generativelanguage.googleapis.com/v1beta" |}).

(** *** The property values of [languageModels] *)

(** ["gpt-4.1-mini": openaiClient("gpt-4.1-mini")]. *)
Definition entry_gpt_4_1_mini (openaiClient : Client) : JS LanguageModel :=
  call (model_of openaiClient "gpt-4.1-mini").

(** ["claude-3-7-sonnet": anthropicClient("claude-3-7-sonnet-20250219")]. *)
Definition entry_claude_3_7_sonnet (anthropicClient : Client) : JS LanguageModel :=
  call (model_of anthropicClient "claude-3-7-sonnet-20250219").

(** ["qwen-qwq": wrapLanguageModel({ model: groqClient("qwen-qwq-32b"), ... })]. *)
Definition entry_qwen_qwq (groqClient : Client) (middleware : Middleware)
  : JS LanguageModel :=
  m <- call (model_of groqClient "qwen-qwq-32b") ;;
  call (wrapLanguageModel
          {| wrap_model := m;
             wrap_middleware := middleware;
             wrap_providerOptions := None |}).

(** ["grok-3-mini": xaiClient("grok-3-mini-latest")]. *)
Definition entry_grok_3_mini (xaiClient : Client) : JS LanguageModel :=
  call (model_of xaiClient "grok-3-mini-latest").

(** ["gemini-pro": wrapLanguageModel({ model: googleClient("gemini-pro"), ... })]. *)
Definition entry_gemini_pro (googleClient : Client) (middleware : Middleware)
  : JS LanguageModel :=
  m <- call (model_of googleClient "gemini-pro") ;;
  call (wrapLanguageModel
          {| wrap_model := m;
             wrap_middleware := middleware;
             wrap_providerOptions := Some
           {| google :=
               {| responseModalities := [TEXT];
                  thinkingConfig := {| thinkingBudget := 1024 |};
                  safetySettings :=
                    [ {| category := HARM_CATEGORY_DANGEROUS_CONTENT;
                         threshold := BLOCK_MEDIUM_AND_ABOVE |};
                      {| category := HARM_CATEGORY_HATE_SPEECH;
                         threshold := BLOCK_MEDIUM_AND_ABOVE |};
                      {| category := HARM_CATEGORY_HARASSMENT;
                         threshold := BLOCK_MEDIUM_AND_ABOVE |};
                      {| category := HARM_CATEGORY_SEXUALLY_EXPLICIT;
                         threshold := BLOCK_MEDIUM_AND_ABOVE |} ] |} |} |}).

(** ["gemini-2-5-flash-preview": wrapLanguageModel({ model: googleClient("gemini-2.5-flash-preview-04-17"), ... })]. *)
Definition entry_gemini_2_5_flash_preview (googleClient : Client) (middleware : Middleware)
  : JS LanguageModel :=
  m <- call (model_of googleClient "gemini-2.5-flash-preview-04-17") ;;
  call (wrapLanguageModel
          {| wrap_model := m;
             wrap_middleware := middleware;
             wrap_providerOptions := Some
           {| google :=
               {| responseModalities := [TEXT];
                  thinkingConfig := {| thinkingBudget := 1024 |};
                  safetySettings :=
                    [ {| category := HARM_CATEGORY_DANGEROUS_CONTENT;
                         threshold := BLOCK_MEDIUM_AND_ABOVE |};
                      {| category := HARM_CATEGORY_HATE_SPEECH;
                         threshold := BLOCK_MEDIUM_AND_ABOVE |};
                      {| category := HARM_CATEGORY_HARASSMENT;
                         threshold := BLOCK_MEDIUM_AND_ABOVE |};
                      {| category := HARM_CATEGORY_SEXUALLY_EXPLICIT;
                         threshold := BLOCK_MEDIUM_AND_ABOVE |} ] |} |} |}).

(** ["gemini-2-5-pro-exp": wrapLanguageModel({ model: googleClient("gemini-2.5-pro-exp-03-25"), ... })]. *)
Definition entry_gemini_2_5_pro_exp (googleClient : Client) (middleware : Middleware)
  : JS LanguageModel :=
  m <- call (model_of googleClient "gemini-2.5-pro-exp-03-25") ;;
  call (wrapLanguageModel
          {| wrap_model := m;
             wrap_middleware := middleware;
             wrap_providerOptions := Some
           {| google :=
               {| responseModalities := [TEXT];
                  thinkingConfig := {| thinkingBudget := 1024 |};
                  safetySettings :=
                    [ {| category := HARM_CATEGORY_DANGEROUS_CONTENT;
                         threshold := BLOCK_MEDIUM_AND_ABOVE |};
                      {| category := HARM_CATEGORY_HATE_SPEECH;
                         threshold := BLOCK_MEDIUM_AND_ABOVE |};
                      {| category := HARM_CATEGORY_HARASSMENT;
                         threshold := BLOCK_MEDIUM_AND_ABOVE |};
                      {| category := HARM_CATEGORY_SEXUALLY_EXPLICIT;
                         threshold := BLOCK_MEDIUM_AND_ABOVE |} ] |} |} |}).

(** ["gemini-2-0-flash": wrapLanguageModel({ model: googleClient("gemini-2.0-flash"), ... })]. *)
Definition entry_gemini_2_0_flash (googleClient : Client) (middleware : Middleware)
  : JS LanguageModel :=
  m <- call (model_of googleClient "gemini-2.0-flash") ;;
  call (wrapLanguageModel
          {| wrap_model := m;
             wrap_middleware := middleware;
             wrap_providerOptions := Some
           {| google :=
               {| responseModalities := [TEXT];
                  thinkingConfig := {| thinkingBudget := 1024 |};
                  safetySettings :=
                    [ {| category := HARM_CATEGORY_DANGEROUS_CONTENT;
                         threshold := BLOCK_MEDIUM_AND_ABOVE |};
                      {| category := HARM_CATEGORY_HATE_SPEECH;
                         threshold := BLOCK_MEDIUM_AND_ABOVE |};
                      {| category := HARM_CATEGORY_HARASSMENT;
                         threshold := BLOCK_MEDIUM_AND_ABOVE |};
                      {| category := HARM_CATEGORY_SEXUALLY_EXPLICIT;
                         threshold := BLOCK_MEDIUM_AND_ABOVE |} ] |} |} |}).

(** The literal of [modelDetails]. *)
Definition modelDetails_literal : Obj ModelInfo :=
literal
  [ ("gpt-4.1-mini",
     {| provider := "OpenAI";
        name := "GPT-4.1 Mini";
        description := "Compact version of OpenAI's GPT-4.1 with good balance of capabilities, including vision.";
        apiVersion := "gpt-4.1-mini";
        capabilities := ["Balance"; "Creative"; "Vision"] |});
    ("claude-3-7-sonnet",
     {| provider := "Anthropic";
        name := "Claude 3.7 Sonnet";
        description := "Latest version of Anthropic's Claude 3.7 Sonnet with strong reasoning and coding capabilities.";
        apiVersion := "claude-3-7-sonnet-20250219";
        capabilities := ["Reasoning"; "Efficient"; "Agentic"] |});
    ("qwen-qwq",
     {| provider := "Groq";
        name := "Qwen QWQ";
        description := "Latest version of Alibaba's Qwen QWQ with strong reasoning and coding capabilities.";
        apiVersion := "qwen-qwq";
        capabilities := ["Reasoning"; "Efficient"; "Agentic"] |});
    ("grok-3-mini",
     {| provider := "XAI";
        name := "Grok 3 Mini";
        description := "Latest version of XAI's Grok 3 Mini with strong reasoning and coding capabilities.";
        apiVersion := "grok-3-mini-latest";
        capabilities := ["Reasoning"; "Efficient"; "Agentic"] |});
    ("gemini-pro",
     {| provider := "Google";
        name := "Gemini Pro";
        description := "Google's Gemini Pro model with strong reasoning, coding, and multimodal capabilities.";
        apiVersion := "gemini-pro";
        capabilities := ["Reasoning"; "Multimodal"; "Coding"] |});
    ("gemini-2-5-flash-preview",
     {| provider := "Google";
        name := "Gemini 2.5 Flash Preview";
        description := "Latest preview version of Gemini 2.5 Flash with improved speed and capabilities.";
        apiVersion := "gemini-2.5-flash-preview-04-17";
        capabilities := ["Fast"; "Preview"; "Improved"] |});
    ("gemini-2-5-pro-exp",
     {| provider := "Google";
        name := "Gemini 2.5 Pro Experimental";
        description := "Experimental version of Gemini 2.5 Pro with advanced features and capabilities.";
        apiVersion := "gemini-2.5-pro-exp-03-25";
        capabilities := ["Advanced"; "Experimental"; "Enhanced"] |});
    ("gemini-2-0-flash",
     {| provider := "Google";
        name := "Gemini 2.0 Flash";
        description := "Fast and efficient version of Gemini 2.0 optimized for quick responses.";
        apiVersion := "gemini-2.0-flash";
        capabilities := ["Fast"; "Efficient"; "Optimized"] |}) ].

(** [if (typeof window !== 'undefined')
      window.addEventListener('storage', storageListener)]. *)
Definition register_storageListener (h : Host) : JS unit :=
  match window h with
  | Some _ => perform (AddEventListener "storage")
  | None => ret tt
  end.

(** The top level of the module, statement by statement; the properties
    of the literal of [languageModels] are evaluated in source order. *)
Definition providers (h : Host) : JS Scope :=
  middleware <- init_middleware ;;
  openaiClient <- init_openaiClient h ;;
  anthropicClient <- init_anthropicClient h ;;
  groqClient <- init_groqClient h ;;
  xaiClient <- init_xaiClient h ;;
  googleClient <- init_googleClient h ;;
  m1 <- entry_gpt_4_1_mini openaiClient ;;
  m2 <- entry_claude_3_7_sonnet anthropicClient ;;
  m3 <- entry_qwen_qwq groqClient middleware ;;
  m4 <- entry_grok_3_mini xaiClient ;;
  m5 <- entry_gemini_pro googleClient middleware ;;
  m6 <- entry_gemini_2_5_flash_preview googleClient middleware ;;
  m7 <- entry_gemini_2_5_pro_exp googleClient middleware ;;
  m8 <- entry_gemini_2_0_flash googleClient middleware ;;
  let languageModels :=
    literal
      [ ("gpt-4.1-mini", m1);
        ("claude-3-7-sonnet", m2);
        ("qwen-qwq", m3);
        ("grok-3-mini", m4);
        ("gemini-pro", m5);
        ("gemini-2-5-flash-preview", m6);
        ("gemini-2-5-pro-exp", m7);
        ("gemini-2-0-flash", m8) ] in
  let modelDetails := modelDetails_literal in
  register_storageListener h ;;;
  model <- call (customProvider languageModels) ;;
  ret {| middleware := middleware;
         openaiClient := openaiClient;
         anthropicClient := anthropicClient;
         groqClient := groqClient;
         xaiClient := xaiClient;
         googleClient := googleClient;
         languageModels := languageModels;
         modelDetails := modelDetails;
         model := model;
         MODELS := Object_keys languageModels;
         defaultModel := "qwen-qwq" |}.

(** Some provider client or some property value of [languageModels]
    throws while it is constructed: the middleware, one of the five
    clients, or, with the clients and the middleware constructed, one of
    the eight entries. *)
Definition construction_fails (h : Host) : Prop :=
  (exists e, completion init_middleware = Throw e) \/
  (exists e, completion (init_openaiClient h) = Throw e) \/
  (exists e, completion (init_anthropicClient h) = Throw e) \/
  (exists e, completion (init_groqClient h) = Throw e) \/
  (exists e, completion (init_xaiClient h) = Throw e) \/
  (exists e, completion (init_googleClient h) = Throw e) \/
  (exists mw c1 c2 c3 c4 c5 e,
      completion init_middleware = Normal mw /\
      completion (init_openaiClient h) = Normal c1 /\
      completion (init_anthropicClient h) = Normal c2 /\
      completion (init_groqClient h) = Normal c3 /\
      completion (init_xaiClient h) = Normal c4 /\
      completion (init_googleClient h) = Normal c5 /\
      (completion (entry_gpt_4_1_mini c1) = Throw e \/
       completion (entry_claude_3_7_sonnet c2) = Throw e \/
       completion (entry_qwen_qwq c3 mw) = Throw e \/
       completion (entry_grok_3_mini c4) = Throw e \/
       completion (entry_gemini_pro c5 mw) = Throw e \/
       completion (entry_gemini_2_5_flash_preview c5 mw) = Throw e \/
       completion (entry_gemini_2_5_pro_exp c5 mw) = Throw e \/
       completion (entry_gemini_2_0_flash c5 mw) = Throw e)).

(** The identifiers of the registry, in the order of the literal. *)
Definition identifiers : list string :=
  [ "gpt-4.1-mini"; "claude-3-7-sonnet"; "qwen-qwq"; "grok-3-mini";
    "gemini-pro"; "gemini-2-5-flash-preview"; "gemini-2-5-pro-exp";
    "gemini-2-0-flash" ].

End Providers.

(* ================================================================== *)
(** ** An SDK that records how each object was constructed *)

Module Recording.

Inductive Family : Type := OpenAI | Anthropic | Groq | Xai | Google.

Record RClient : Type := {
  family : Family;
  settings : ClientSettings
}.

(** A model instance is the record of its construction: the client and
    version string it was requested with, or the arguments it was wrapped
    with. *)
Inductive RModel : Type :=
| BaseModel (client : RClient) (version : string)
| WrappedModel (base : RModel) (mw : MiddlewareSettings)
               (opts : option ProviderOptions).

(** The backend version string the instance was requested with. *)
Fixpoint backendVersion (m : RModel) : string :=
  match m with
  | BaseModel _ v => v
  | WrappedModel b _ _ => backendVersion b
  end.

Fixpoint familyOf (m : RModel) : Family :=
  match m with
  | BaseModel c _ => family c
  | WrappedModel b _ _ => familyOf b
  end.

(** Modelled from the spec: what an instance returned by
    [wrapLanguageModel] of the package "ai" carries; the package is not
    part of the repository.  By sections 3 and 4.4 of the specification the
    provider options given when an instance is composed are attached to
    that instance at construction time; an instance that was not composed
    has none. *)
Definition optionsOf (m : RModel) : option ProviderOptions :=
  match m with
  | BaseModel _ _ => None
  | WrappedModel _ _ o => o
  end.

Definition create (broken : Family -> bool) (f : Family)
           (s : ClientSettings) : Completion RClient :=
  if broken f
  then Throw (Error "provider client construction failed")
  else Normal {| family := f; settings := s |}.

(** Modelled from the spec: [wrapLanguageModel] of the package "ai", which
    is not part of the repository.  By section 4.4 of the specification it
    composes the base instance with the middleware and the provider
    options; the composed instance is recorded with the three arguments of
    the call. *)
Definition wrap (a : WrapArgs RModel MiddlewareSettings)
  : Completion RModel :=
  Normal (WrappedModel (wrap_model a) (wrap_middleware a)
                       (wrap_providerOptions a)).

(** The factories and the clients return the record of their call, except
    that the factory of a [broken] family throws; [wrapLanguageModel] is
    [wrap]. *)
Definition sdk (broken : Family -> bool) : SDK := {|
  Middleware := MiddlewareSettings;
  Client := RClient;
  LanguageModel := RModel;
  Provider := Obj RModel;
  extractReasoningMiddleware := fun s => Normal s;
  createOpenAI := create broken OpenAI;
  createAnthropic := create broken Anthropic;
  createGroq := create broken Groq;
  createXai := create broken Xai;
  createGoogleGenerativeAI := create broken Google;
  model_of := fun c v => Normal (BaseModel c v);
  wrapLanguageModel := wrap;
  customProvider := fun o => Normal o
|}.

Definition sound : SDK := sdk (fun _ => false).

(** *** Text generation of a recorded instance *)

Record Generation : Type := {
  text : string;
  reasoning : string
}.

(** Modelled from the spec: the behaviour of the middleware made by
    [extractReasoningMiddleware] of the package "ai", which is not part of
    the repository.  Content enclosed in [<tag>] ... [</tag>] is taken out
    of the text and surfaced as reasoning; without the tag the text is
    unchanged and the reasoning is empty. *)
Fixpoint extract_segments (fuel : nat) (opening closing s : string)
  : string * string :=
  match fuel with
  | O => (s, EmptyString)
  | S fuel' =>
      match split_on opening s with
      | None => (s, EmptyString)
      | Some (before, rest) =>
          match split_on closing rest with
          | None => (s, EmptyString)
          | Some (inner, after) =>
              let (t, r) := extract_segments fuel' opening closing after in
              ((before ++ t)%string, (inner ++ r)%string)
          end
      end
  end.

Definition extractReasoning (tag s : string) : Generation :=
  let (t, r) :=
    extract_segments (String.length s)
                     ("<" ++ tag ++ ">")%string
                     ("</" ++ tag ++ ">")%string s in
  {| text := t; reasoning := r |}.

(** Modelled from the spec: [wrapLanguageModel] gives an instance that
    generates as its base does and passes the text through the
    middleware.  [backend c v] is the text the backend of client [c]
    generates for version [v]. *)
Fixpoint generate (backend : RClient -> string -> string) (m : RModel)
  : Generation :=
  match m with
  | BaseModel c v => {| text := backend c v; reasoning := EmptyString |}
  | WrappedModel b mw _ =>
      let g := generate backend b in
      let e := extractReasoning (tagName mw) (text g) in
      {| text := text e; reasoning := (reasoning g ++ reasoning e)%string |}
  end.

End Recording.

(* ================================================================== *)
(** ** Concrete hosts and events *)

Module Examples.

(** A server: the OpenAI key is in the environment, there is no window. *)
Definition server : Host := {|
  process_env := get [("OPENAI_API_KEY", "sk-env")];
  window := None
|}.

(** A browser whose environment and localStorage both hold an OpenAI key;
    the Groq key is in localStorage only, and the xAI key is stored as the
    empty string. *)
Definition browser : Host := {|
  process_env := get [("OPENAI_API_KEY", "sk-env"); ("GROQ_API_KEY", "")];
  window := Some {| localStorage := Normal (Some {| getItem :=
    get [("OPENAI_API_KEY", "sk-store"); ("GROQ_API_KEY", "gsk-store");
         ("XAI_API_KEY", "")] |}) |}
|}.

(** A Groq backend that answers with its chain of thought in a tag. *)
Definition thinking_backend (c : Recording.RClient) (v : string) : string :=
  "A<think>B</think>C".

(** Only the Groq factory throws. *)
Definition groq_broken (f : Recording.Family) : bool :=
  match f with Recording.Groq => true | _ => false end.

End Examples.

Module MoreExamples.

(** The browser of the examples after the xAI key in its store was
    replaced; the other keys are as before. *)
Definition browser_rotated : Host := {|
  process_env := get [("OPENAI_API_KEY", "sk-env"); ("GROQ_API_KEY", "")];
  window := Some {| localStorage := Normal (Some {| getItem :=
    get [("OPENAI_API_KEY", "sk-store"); ("GROQ_API_KEY", "gsk-store");
         ("XAI_API_KEY", "xai-new")] |}) |}
|}.

(** A browser that denies access to site data: reading
    [window.localStorage] throws.  Only the OpenAI key is in the
    environment. *)
Definition storage_denied : Host := {|
  process_env := get [("OPENAI_API_KEY", "sk-env")];
  window := Some {| localStorage := Throw (Error "SecurityError") |}
|}.

(** A host that defines [window] without a [localStorage] property, and
    has no credential in its environment. *)
Definition storage_missing : Host := {|
  process_env := fun _ => None;
  window := Some {| localStorage := Normal None |}
|}.

(** A host without any credential and without a window. *)
Definition bare : Host := {|
  process_env := fun _ => None;
  window := None
|}.


End MoreExamples.

(* ================================================================== *)
(** * Properties *)

(** ** Strings *)

Lemma append_empty_r (s : string) : (s ++ "")%string = s.
Proof. induction s as [|c s IH]; simpl; [reflexivity | now rewrite IH]. Qed.

Lemma append_assoc (a b c : string) :
  ((a ++ b) ++ c)%string = (a ++ (b ++ c))%string.
Proof. induction a as [|x a IH]; simpl; [reflexivity | now rewrite IH]. Qed.

Lemma strip_prefix_spec (p s r : string) :
  strip_prefix p s = Some r <-> s = (p ++ r)%string.
Proof.
  revert s; induction p as [|a p IH]; intros s; simpl.
  - split; [intros [= ->] | intros ->]; reflexivity.
  - destruct s as [|b s].
    + split; discriminate.
    + destruct (Ascii.eqb_spec a b) as [->|Hab].
      * rewrite IH. split; [intros -> | intros [= ->]]; reflexivity.
      * split; [discriminate | intros [= Hb _]; congruence].
Qed.

Lemma strip_prefix_append (p r : string) :
  strip_prefix p (p ++ r) = Some r.
Proof. now apply strip_prefix_spec. Qed.

Lemma includes_unfold (s pat : string) :
  includes s pat =
  match strip_prefix pat s with
  | Some _ => true
  | None => match s with
            | EmptyString => false
            | String _ s' => includes s' pat
            end
  end.
Proof. destruct s; reflexivity. Qed.

(** [includes] decides the occurrence of a substring. *)
Lemma includes_spec (s pat : string) :
  includes s pat = true <->
  exists pre post, s = (pre ++ pat ++ post)%string.
Proof.
  split.
  - induction s as [|c s IH]; rewrite includes_unfold;
      destruct (strip_prefix pat _) as [r|] eqn:E.
    + intros _. exists EmptyString, r. simpl. now apply strip_prefix_spec.
    + discriminate.
    + intros _. exists EmptyString, r. simpl. now apply strip_prefix_spec.
    + intros H. destruct (IH H) as (pre & post & ->).
      now exists (String c pre), post.
  - intros (pre & post & ->).
    induction pre as [|c pre IH]; rewrite includes_unfold.
    + simpl. now rewrite strip_prefix_append.
    + destruct (strip_prefix pat _); [reflexivity | exact IH].
Qed.

Lemma split_on_unfold (pat s : string) :
  split_on pat s =
  match strip_prefix pat s with
  | Some rest => Some (EmptyString, rest)
  | None =>
      match s with
      | EmptyString => None
      | String c s' =>
          match split_on pat s' with
          | Some (before, rest) => Some (String c before, rest)
          | None => None
          end
      end
  end.
Proof. destruct s; reflexivity. Qed.

(** A text without the first character of [pat] is cut exactly where [pat]
    is appended to it. *)
Lemma split_on_lacks (c : ascii) (pat a rest : string) :
  lacks c a = true ->
  split_on (String c pat) (a ++ String c pat ++ rest)
  = Some (a, rest).
Proof.
  induction a as [|x a IH]; intros Ha; rewrite split_on_unfold.
  - change (("" ++ String c pat ++ rest)%string)
      with ((String c pat ++ rest)%string).
    now rewrite strip_prefix_append.
  - simpl in Ha. apply andb_true_iff in Ha as [Hx Ha].
    apply negb_true_iff in Hx.
    simpl. rewrite Ascii.eqb_sym, Hx.
    simpl in IH. now rewrite (IH Ha).
Qed.

Lemma split_on_absent (c : ascii) (pat s : string) :
  lacks c s = true -> split_on (String c pat) s = None.
Proof.
  induction s as [|x s IH]; intros Hs; [reflexivity|].
  simpl in Hs. apply andb_true_iff in Hs as [Hx Hs].
  apply negb_true_iff in Hx.
  rewrite split_on_unfold. simpl. rewrite Ascii.eqb_sym, Hx.
  now rewrite (IH Hs).
Qed.

Lemma truthy_spec (v : option string) :
  truthy v = true <-> exists s, v = Some s /\ s <> EmptyString.
Proof.
  destruct v as [s|]; simpl.
  - rewrite negb_true_iff, String.eqb_neq.
    split; [intros H; now exists s | intros (s' & [= ->] & H); exact H].
  - split; [discriminate | intros (s & H & _); discriminate].
Qed.

Lemma or_undefined_spec (v : option string) :
  or_undefined v = None \/
  exists s, or_undefined v = Some s /\ v = Some s /\ s <> EmptyString.
Proof.
  unfold or_undefined. destruct (truthy v) eqn:E; [right | now left].
  apply truthy_spec in E as (s & -> & Hs). now exists s.
Qed.

(** ** Computations *)

Lemma completion_bind_normal {A B} (m : JS A) (f : A -> JS B) (b : B) :
  completion (bind m f) = Normal b <->
  exists a, completion m = Normal a /\ completion (f a) = Normal b.
Proof.
  destruct m as [l [a|e]]; unfold completion; simpl.
  - destruct (f a) as [l' r] eqn:E; simpl. split.
    + intros ->. exists a. now rewrite E.
    + intros (a' & [= <-] & H). now rewrite E in H.
  - split; [discriminate | intros (a & H & _); discriminate].
Qed.

Lemma completion_bind_throw {A B} (m : JS A) (f : A -> JS B) (e : Exn) :
  completion m = Throw e -> completion (bind m f) = Throw e.
Proof. destruct m as [l [a|e']]; unfold completion; simpl; congruence. Qed.

Lemma completion_cases {A} (m : JS A) :
  (exists a, completion m = Normal a) \/ (exists e, completion m = Throw e).
Proof. destruct m as [l [a|e]]; simpl; eauto. Qed.

Lemma effects_bind_normal {A B} (m : JS A) (f : A -> JS B) (a : A) :
  completion m = Normal a ->
  effects (bind m f) = effects m ++ effects (f a).
Proof.
  destruct m as [l [a'|e]]; unfold completion, effects; simpl;
    [intros [= ->] | discriminate].
  now destruct (f a).
Qed.

(** ** Credential resolver *)

(** What a call of [getApiKey] does, case by case. *)
Lemma getApiKey_run (h : Host) (k : string) :
  getApiKey h k =
  if truthy (process_env h k)
  then ([EnvRead k; EnvRead k], Normal (or_undefined (process_env h k)))
  else
    match window h with
    | Some w =>
        match localStorage w with
        | Normal (Some storage) =>
            ([EnvRead k; StoreRead k],
             Normal (or_undefined (getItem storage k)))
        | Normal None =>
            ([EnvRead k],
             Throw (Error "TypeError: window.localStorage is undefined"))
        | Throw e => ([EnvRead k], Throw e)
        end
    | None => ([EnvRead k], Normal None)
    end.
Proof.
  unfold getApiKey, read_env, read_store, bind, perform, ret, throw. simpl.
  destruct (truthy (process_env h k)); [reflexivity|].
  destruct (window h) as [w|]; [|reflexivity].
  destruct (localStorage w) as [[storage|]|e]; reflexivity.
Qed.

Lemma falsy_cases (v : option string) :
  truthy v = false <-> v = None \/ v = Some EmptyString.
Proof.
  destruct v as [s|]; simpl.
  - rewrite negb_false_iff, String.eqb_eq.
    split; [intros ->; now right | intros [H|[= ->]]; [discriminate | easy]].
  - split; [now left | reflexivity].
Qed.


(** C2. Credential resolution precedence.  When the environment holds a
    non-empty value for the key, [getApiKey] returns that value and reads
    only the environment, whatever the store holds; and whenever the store
    is read, the environment value is absent or empty and a window exists. *)
Theorem getApiKey_environment_first (h : Host) (k : string) :
  (forall v, process_env h k = Some v -> v <> EmptyString ->
     completion (getApiKey h k) = Normal (Some v) /\
     effects (getApiKey h k) = [EnvRead k; EnvRead k]) /\
  (forall k', In (StoreRead k') (effects (getApiKey h k)) ->
     k' = k /\
     (process_env h k = None \/ process_env h k = Some EmptyString) /\
     exists w, window h = Some w).
Proof.
  rewrite getApiKey_run. split.
  - intros v Hv Hne.
    assert (T : truthy (process_env h k) = true)
      by (apply truthy_spec; eauto).
    rewrite T. simpl. unfold or_undefined. rewrite T, Hv. now split.
  - intros k' Hin.
    destruct (truthy (process_env h k)) eqn:T.
    + simpl in Hin. destruct Hin as [H|[H|[]]]; discriminate.
    + apply falsy_cases in T.
      destruct (window h) as [w|]; simpl in Hin.
      * destruct (localStorage w) as [[storage|]|e]; simpl in Hin.
        -- destruct Hin as [H|[H|[]]]; [discriminate|].
           injection H as <-. eauto.
        -- destruct Hin as [H|[]]; discriminate.
        -- destruct Hin as [H|[]]; discriminate.
      * destruct Hin as [H|[]]; discriminate.
Qed.

(** In the browser of the examples both sources hold an OpenAI key. *)
Lemma getApiKey_environment_first_witness :
  process_env Examples.browser "OPENAI_API_KEY" = Some "sk-env" /\
  (exists w storage,
      window Examples.browser = Some w /\
      localStorage w = Normal (Some storage) /\
      getItem storage "OPENAI_API_KEY" = Some "sk-store") /\
  completion (getApiKey Examples.browser "OPENAI_API_KEY")
  = Normal (Some "sk-env") /\
  effects (getApiKey Examples.browser "OPENAI_API_KEY")
  = [EnvRead "OPENAI_API_KEY"; EnvRead "OPENAI_API_KEY"].
Proof.
  split; [reflexivity|].
  split; [do 2 eexists; repeat split; reflexivity|].
  apply (proj1 (getApiKey_environment_first
                  Examples.browser "OPENAI_API_KEY") "sk-env").
  - reflexivity.
  - discriminate.
Defined.

(** C7. Credential resolution absence fails on a window whose store cannot
    be read.  In a browser that denies access to site data, and on a host
    that defines [window] without [localStorage], neither source holds an
    Anthropic key; [getApiKey] does not return [undefined] there but throws
    what the read of [window.localStorage.getItem] raises, and the top
    level of the module throws with it. *)
Theorem getApiKey_throws_on_unreadable_store :
  process_env MoreExamples.storage_denied "ANTHROPIC_API_KEY" = None /\
  completion (getApiKey MoreExamples.storage_denied "ANTHROPIC_API_KEY")
  = Throw (Error "SecurityError") /\
  process_env MoreExamples.storage_missing "ANTHROPIC_API_KEY" = None /\
  completion (getApiKey MoreExamples.storage_missing "ANTHROPIC_API_KEY")
  = Throw (Error "TypeError: window.localStorage is undefined") /\
  completion (@providers Recording.sound MoreExamples.storage_denied)
  = Throw (Error "SecurityError").
Proof. repeat split. Qed.

(** X17. Credential resolution absence.  When the environment holds no
    value (or the empty string) for the key, and there is no window, or the
    window's store can be read and holds no value (or the empty string) for
    the key, [getApiKey] completes normally with [undefined]. *)
Theorem getApiKey_absent (h : Host) (k : string) :
  (process_env h k = None \/ process_env h k = Some EmptyString) ->
  (window h = None \/
   exists w storage,
     window h = Some w /\
     localStorage w = Normal (Some storage) /\
     (getItem storage k = None \/ getItem storage k = Some EmptyString)) ->
  completion (getApiKey h k) = Normal None.
Proof.
  intros He Hs. rewrite getApiKey_run.
  apply falsy_cases in He. rewrite He.
  destruct Hs as [-> | (w & storage & -> & -> & Hw)]; [reflexivity|].
  simpl. destruct Hw as [-> | ->]; reflexivity.
Qed.

(** On the server no source holds an Anthropic key; in the browser the xAI
    key is missing from the environment and empty in the store. *)
Lemma getApiKey_absent_witness :
  completion (getApiKey Examples.server "ANTHROPIC_API_KEY") = Normal None /\
  completion (getApiKey Examples.browser "XAI_API_KEY") = Normal None.
Proof.
  split.
  - apply (getApiKey_absent Examples.server "ANTHROPIC_API_KEY").
    + left; reflexivity.
    + left; reflexivity.
  - apply (getApiKey_absent Examples.browser "XAI_API_KEY").
    + left; reflexivity.
    + right. do 2 eexists. split; [reflexivity|]. split; [reflexivity|].
      right; reflexivity.
Defined.

(** C9. [getApiKey] never returns the empty string: whatever it returns is
    [undefined] or a non-empty string, and it does return, with one of the
    two, whenever the environment value is used, there is no window, or the
    window's store can be read.  Its outcome is a function of the two
    source values after [|| undefined], so an empty environment value
    counts as an absent one, and an empty or [null] store value gives
    [undefined]. *)
Theorem getApiKey_never_empty (h : Host) (k : string) :
  (forall v, completion (getApiKey h k) = Normal v ->
     v = None \/ exists s, v = Some s /\ s <> EmptyString) /\
  ((exists v, process_env h k = Some v /\ v <> EmptyString) \/
   window h = None \/
   (exists w storage, window h = Some w /\
                      localStorage w = Normal (Some storage)) ->
   completion (getApiKey h k) = Normal None \/
   exists s, completion (getApiKey h k) = Normal (Some s) /\
             s <> EmptyString) /\
  completion (getApiKey h k) =
  match or_undefined (process_env h k) with
  | Some v => Normal (Some v)
  | None =>
      match window h with
      | Some w =>
          match localStorage w with
          | Normal (Some storage) =>
              Normal (or_undefined (getItem storage k))
          | Normal None =>
              Throw (Error "TypeError: window.localStorage is undefined")
          | Throw e => Throw e
          end
      | None => Normal None
      end
  end /\
  or_undefined (Some EmptyString) = None /\
  or_undefined None = None.
Proof.
  assert (R : forall v : option string,
              (v = None \/ exists s, v = Some s /\ s <> EmptyString) ->
              forall c, c = Normal v ->
              c = Normal None \/
              exists s, c = Normal (Some s) /\ s <> EmptyString).
  { intros v [-> | (s & -> & Hs)] c ->; eauto. }
  assert (E : completion (getApiKey h k) =
    match or_undefined (process_env h k) with
    | Some v => Normal (Some v)
    | None =>
        match window h with
        | Some w =>
            match localStorage w with
            | Normal (Some storage) =>
                Normal (or_undefined (getItem storage k))
            | Normal None =>
                Throw (Error "TypeError: window.localStorage is undefined")
            | Throw e => Throw e
            end
        | None => Normal None
        end
    end).
  { rewrite getApiKey_run. destruct (truthy (process_env h k)) eqn:T.
    - simpl. unfold or_undefined. rewrite T.
      apply truthy_spec in T as (s & -> & _). reflexivity.
    - assert (U : or_undefined (process_env h k) = None)
        by (unfold or_undefined; now rewrite T).
      rewrite U. destruct (window h) as [w|]; [|reflexivity].
      destruct (localStorage w) as [[storage|]|e]; reflexivity. }
  assert (V : forall v, completion (getApiKey h k) = Normal v ->
              v = None \/ exists s, v = Some s /\ s <> EmptyString).
  { intros v. rewrite E.
    destruct (or_undefined_spec (process_env h k))
      as [U | (s & U & _ & Hs)]; rewrite U.
    - destruct (window h) as [w|]; [|intros [= <-]; now left].
      destruct (localStorage w) as [[storage|]|e]; try discriminate.
      intros [= <-].
      destruct (or_undefined_spec (getItem storage k))
        as [W | (s & W & _ & Hs)]; rewrite W; eauto.
    - intros [= <-]. eauto. }
  split; [exact V|]. split; [|split; [exact E | split; reflexivity]].
  intros Hret.
  assert (exists v, completion (getApiKey h k) = Normal v) as [v Hv].
  { rewrite E.
    destruct (or_undefined_spec (process_env h k))
      as [U | (s & U & _ & Hs)]; rewrite U; [|eauto].
    destruct Hret as [(x & Hx & Hne) | [-> | (w & storage & -> & ->)]];
      eauto.
    unfold or_undefined in U.
    assert (T : truthy (process_env h k) = true)
      by (apply truthy_spec; eauto).
    rewrite T, Hx in U. discriminate. }
  exact (R v (V v Hv) _ Hv).
Qed.

(** The Groq key of the browser comes from its store. *)
Lemma getApiKey_never_empty_witness :
  (completion (getApiKey Examples.browser "GROQ_API_KEY") = Normal None \/
   exists s, completion (getApiKey Examples.browser "GROQ_API_KEY")
             = Normal (Some s) /\ s <> EmptyString) /\
  (Some "gsk-store" = None \/
   exists s, Some "gsk-store" = Some s /\ s <> EmptyString).
Proof.
  split.
  - apply (proj1 (proj2 (getApiKey_never_empty
                           Examples.browser "GROQ_API_KEY"))).
    right; right. do 2 eexists. split; reflexivity.
  - apply (proj1 (getApiKey_never_empty Examples.browser "GROQ_API_KEY")).
    reflexivity.
Defined.

(** ** Storage listener *)

(** C8. Store-change reload trigger.  For every storage event the listener
    completes normally and reloads the page once when the event has a key
    that contains ["API_KEY"], and does nothing otherwise; the other fields
    of the event play no part. *)
Theorem storageListener_reload (event : StorageEvent) :
  completion (storageListener event) = Normal tt /\
  (effects (storageListener event) = [Reload] \/
   effects (storageListener event) = []) /\
  (effects (storageListener event) = [Reload] <->
   exists k pre post,
     key event = Some k /\ k = (pre ++ "API_KEY" ++ post)%string).
Proof.
  unfold storageListener.
  destruct (key event) as [k|].
  - destruct (includes k "API_KEY") eqn:E.
    + repeat split; auto.
      intros _. apply includes_spec in E as (pre & post & ->).
      now exists (pre ++ "API_KEY" ++ post)%string, pre, post.
    + repeat split; auto; [discriminate|].
      intros (k' & pre & post & [= <-] & Hk).
      assert (includes k "API_KEY" = true)
        by (apply includes_spec; eauto).
      congruence.
  - repeat split; auto; [discriminate|].
    intros (k & _ & _ & H & _). discriminate.
Qed.

(** ** Objects *)

Section ObjectFacts.
Context {V : Type}.
Implicit Types (o : Obj V) (k : string) (v : V).

Lemma get_In o k : get o k <> None <-> In k (map fst o).
Proof.
  induction o as [|[k' v'] o IH]; simpl.
  - split; [congruence | intros []].
  - destruct (String.eqb_spec k' k) as [->|Hk].
    + split; [now left | discriminate].
    + rewrite IH. split; [now right | intros [H|H]; [congruence | exact H]].
Qed.

Lemma obj_set_keys o k v k' :
  In k' (map fst (obj_set o k v)) <-> In k' (map fst o) \/ k' = k.
Proof.
  induction o as [|[k0 v0] o IH]; simpl.
  - split; [intros [H|[]]; now right | intros [[]|H]; now left].
  - destruct (String.eqb_spec k0 k) as [->|Hk]; simpl.
    + split; [now left | intros [H|H]; [exact H | now left]].
    + rewrite IH. tauto.
Qed.

Lemma obj_set_NoDup o k v :
  NoDup (map fst o) -> NoDup (map fst (obj_set o k v)).
Proof.
  induction o as [|[k0 v0] o IH]; simpl; intros H.
  - constructor; [intros [] | constructor].
  - destruct (String.eqb_spec k0 k) as [->|Hk]; simpl; [exact H|].
    inversion H as [|? ? Hn Hd]; subst. constructor; [|now apply IH].
    rewrite obj_set_keys. intros [Hin|Heq]; [now apply Hn | congruence].
Qed.

(** An object literal never has two properties of the same name. *)
Lemma literal_NoDup (props : list (string * V)) :
  NoDup (map fst (literal props)).
Proof.
  unfold literal.
  assert (G : forall acc : Obj V, NoDup (map fst acc) ->
            NoDup (map fst (fold_left
              (fun o kv => obj_set o (fst kv) (snd kv)) props acc))).
  { induction props as [|[k v] props IH]; intros acc Hacc; simpl;
      [exact Hacc | now apply IH, obj_set_NoDup]. }
  apply G. constructor.
Qed.

Lemma occurrences_absent o k : ~ In k (map fst o) -> occurrences o k = 0.
Proof.
  unfold occurrences. induction o as [|[k0 v0] o IH]; simpl; intros H.
  - reflexivity.
  - destruct (String.eqb_spec k0 k) as [->|Hk]; [tauto|].
    apply IH. tauto.
Qed.

Lemma occurrences_NoDup o k :
  NoDup (map fst o) -> In k (map fst o) -> occurrences o k = 1.
Proof.
  induction o as [|[k0 v0] o IH]; simpl; intros Hd Hin; [destruct Hin|].
  inversion Hd as [|? ? Hn Hd']; subst. unfold occurrences. simpl.
  destruct (String.eqb_spec k0 k) as [->|Hk]; simpl.
  - f_equal. now apply occurrences_absent.
  - destruct Hin as [H|H]; [congruence | now apply IH].
Qed.

End ObjectFacts.

(** ** The module top level *)

Section ProvidersFacts.
Context `{sdk : SDK}.

(** A successful run of the top level went through every statement. *)
Lemma providers_inv (h : Host) (s : Scope) :
  completion (providers h) = Normal s ->
  exists mw c1 c2 c3 c4 c5 m1 m2 m3 m4 m5 m6 m7 m8 p,
    completion init_middleware = Normal mw /\
    completion (init_openaiClient h) = Normal c1 /\
    completion (init_anthropicClient h) = Normal c2 /\
    completion (init_groqClient h) = Normal c3 /\
    completion (init_xaiClient h) = Normal c4 /\
    completion (init_googleClient h) = Normal c5 /\
    completion (entry_gpt_4_1_mini c1) = Normal m1 /\
    completion (entry_claude_3_7_sonnet c2) = Normal m2 /\
    completion (entry_qwen_qwq c3 mw) = Normal m3 /\
    completion (entry_grok_3_mini c4) = Normal m4 /\
    completion (entry_gemini_pro c5 mw) = Normal m5 /\
    completion (entry_gemini_2_5_flash_preview c5 mw) = Normal m6 /\
    completion (entry_gemini_2_5_pro_exp c5 mw) = Normal m7 /\
    completion (entry_gemini_2_0_flash c5 mw) = Normal m8 /\
    s = {| middleware := mw;
           openaiClient := c1;
           anthropicClient := c2;
           groqClient := c3;
           xaiClient := c4;
           googleClient := c5;
           languageModels :=
             [ ("gpt-4.1-mini", m1);
               ("claude-3-7-sonnet", m2);
               ("qwen-qwq", m3);
               ("grok-3-mini", m4);
               ("gemini-pro", m5);
               ("gemini-2-5-flash-preview", m6);
               ("gemini-2-5-pro-exp", m7);
               ("gemini-2-0-flash", m8) ];
           modelDetails := modelDetails_literal;
           model := p;
           MODELS := identifiers;
           defaultModel := "qwen-qwq" |}.
Proof.
  unfold providers. intros H.
  apply completion_bind_normal in H as (mw & Hmw & H).
  apply completion_bind_normal in H as (c1 & Hc1 & H).
  apply completion_bind_normal in H as (c2 & Hc2 & H).
  apply completion_bind_normal in H as (c3 & Hc3 & H).
  apply completion_bind_normal in H as (c4 & Hc4 & H).
  apply completion_bind_normal in H as (c5 & Hc5 & H).
  apply completion_bind_normal in H as (m1 & Hm1 & H).
  apply completion_bind_normal in H as (m2 & Hm2 & H).
  apply completion_bind_normal in H as (m3 & Hm3 & H).
  apply completion_bind_normal in H as (m4 & Hm4 & H).
  apply completion_bind_normal in H as (m5 & Hm5 & H).
  apply completion_bind_normal in H as (m6 & Hm6 & H).
  apply completion_bind_normal in H as (m7 & Hm7 & H).
  apply completion_bind_normal in H as (m8 & Hm8 & H).
  cbv zeta in H.
  apply completion_bind_normal in H as (u & _ & H).
  apply completion_bind_normal in H as (p & _ & H).
  exists mw, c1, c2, c3, c4, c5, m1, m2, m3, m4, m5, m6, m7, m8, p.
  repeat (split; [assumption|]).
  injection H as <-. reflexivity.
Qed.

End ProvidersFacts.

Section Registry.
Context `{sdk : SDK}.

(** C1. Key-set parity.  Once the module is initialised, an identifier
    has an entry in [languageModels] if and only if it has one in
    [modelDetails]; each identifier of either object has exactly one record
    in the other; and every identifier of [MODELS] has a metadata record. *)
Theorem registry_catalog_parity (h : Host) (s : Scope) :
  completion (providers h) = Normal s ->
  (forall id, get (languageModels s) id <> None <->
              get (modelDetails s) id <> None) /\
  (forall id, get (languageModels s) id <> None ->
              occurrences (modelDetails s) id = 1) /\
  (forall id, get (modelDetails s) id <> None ->
              occurrences (languageModels s) id = 1) /\
  (forall id, In id (MODELS s) ->
              exists info, get (modelDetails s) id = Some info).
Proof.
  intros H.
  destruct (providers_inv h s H)
    as (mw & c1 & c2 & c3 & c4 & c5 & m1 & m2 & m3 & m4 & m5 & m6 & m7
        & m8 & p & _ & _ & _ & _ & _ & _ & _ & _ & _ & _ & _ & _ & _ & _
        & ->).
  cbn [languageModels modelDetails MODELS].
  set (registry := [("gpt-4.1-mini", m1); ("claude-3-7-sonnet", m2);
                    ("qwen-qwq", m3); ("grok-3-mini", m4);
                    ("gemini-pro", m5); ("gemini-2-5-flash-preview", m6);
                    ("gemini-2-5-pro-exp", m7); ("gemini-2-0-flash", m8)]).
  assert (Kr : map fst registry = identifiers) by reflexivity.
  assert (Kd : map fst modelDetails_literal = identifiers) by reflexivity.
  assert (Dd : NoDup (map fst modelDetails_literal))
    by apply literal_NoDup.
  assert (Dr : NoDup (map fst registry)) by (rewrite Kr, <- Kd; exact Dd).
  split; [|split; [|split]]; intros id.
  - rewrite !get_In, Kr, Kd. tauto.
  - intros Hid. apply occurrences_NoDup; [exact Dd|].
    apply get_In in Hid. now rewrite Kd, <- Kr.
  - intros Hid. apply occurrences_NoDup; [exact Dr|].
    apply get_In in Hid. now rewrite Kr, <- Kd.
  - intros Hid. rewrite <- Kd in Hid. apply get_In in Hid.
    destruct (get modelDetails_literal id) as [info|]; [eauto | congruence].
Qed.

(** C6. The default identifier is ["qwen-qwq"] and is a member of
    [MODELS]. *)
Theorem defaultModel_in_MODELS (h : Host) (s : Scope) :
  completion (providers h) = Normal s ->
  defaultModel s = "qwen-qwq" /\ In (defaultModel s) (MODELS s).
Proof.
  intros H.
  destruct (providers_inv h s H)
    as (mw & c1 & c2 & c3 & c4 & c5 & m1 & m2 & m3 & m4 & m5 & m6 & m7
        & m8 & p & _ & _ & _ & _ & _ & _ & _ & _ & _ & _ & _ & _ & _ & _
        & ->).
  cbn [defaultModel MODELS]. split; [reflexivity|].
  unfold identifiers. simpl. tauto.
Qed.

(** C5. Construction atomicity.  If the construction of the middleware,
    of a provider client or of a registry entry throws, the top level of
    the module throws and binds nothing.  When it completes, every
    construction has returned, and [languageModels] holds, under the eight
    identifiers in source order, exactly the instances that the eight
    constructions returned. *)
Theorem providers_all_or_nothing (h : Host) :
  (construction_fails h ->
   exists e, completion (providers h) = Throw e) /\
  (forall s, completion (providers h) = Normal s ->
     completion init_middleware = Normal (middleware s) /\
     completion (init_openaiClient h) = Normal (openaiClient s) /\
     completion (init_anthropicClient h) = Normal (anthropicClient s) /\
     completion (init_groqClient h) = Normal (groqClient s) /\
     completion (init_xaiClient h) = Normal (xaiClient s) /\
     completion (init_googleClient h) = Normal (googleClient s) /\
     exists m1 m2 m3 m4 m5 m6 m7 m8,
       completion (entry_gpt_4_1_mini (openaiClient s)) = Normal m1 /\
       completion (entry_claude_3_7_sonnet (anthropicClient s))
       = Normal m2 /\
       completion (entry_qwen_qwq (groqClient s) (middleware s))
       = Normal m3 /\
       completion (entry_grok_3_mini (xaiClient s)) = Normal m4 /\
       completion (entry_gemini_pro (googleClient s) (middleware s))
       = Normal m5 /\
       completion (entry_gemini_2_5_flash_preview
                     (googleClient s) (middleware s)) = Normal m6 /\
       completion (entry_gemini_2_5_pro_exp
                     (googleClient s) (middleware s)) = Normal m7 /\
       completion (entry_gemini_2_0_flash (googleClient s) (middleware s))
       = Normal m8 /\
       languageModels s =
         [ ("gpt-4.1-mini", m1);
           ("claude-3-7-sonnet", m2);
           ("qwen-qwq", m3);
           ("grok-3-mini", m4);
           ("gemini-pro", m5);
           ("gemini-2-5-flash-preview", m6);
           ("gemini-2-5-pro-exp", m7);
           ("gemini-2-0-flash", m8) ] /\
       MODELS s = identifiers).
Proof.
  assert (Succ : forall s, completion (providers h) = Normal s ->
     completion init_middleware = Normal (middleware s) /\
     completion (init_openaiClient h) = Normal (openaiClient s) /\
     completion (init_anthropicClient h) = Normal (anthropicClient s) /\
     completion (init_groqClient h) = Normal (groqClient s) /\
     completion (init_xaiClient h) = Normal (xaiClient s) /\
     completion (init_googleClient h) = Normal (googleClient s) /\
     exists m1 m2 m3 m4 m5 m6 m7 m8,
       completion (entry_gpt_4_1_mini (openaiClient s)) = Normal m1 /\
       completion (entry_claude_3_7_sonnet (anthropicClient s))
       = Normal m2 /\
       completion (entry_qwen_qwq (groqClient s) (middleware s))
       = Normal m3 /\
       completion (entry_grok_3_mini (xaiClient s)) = Normal m4 /\
       completion (entry_gemini_pro (googleClient s) (middleware s))
       = Normal m5 /\
       completion (entry_gemini_2_5_flash_preview
                     (googleClient s) (middleware s)) = Normal m6 /\
       completion (entry_gemini_2_5_pro_exp
                     (googleClient s) (middleware s)) = Normal m7 /\
       completion (entry_gemini_2_0_flash (googleClient s) (middleware s))
       = Normal m8 /\
       languageModels s =
         [ ("gpt-4.1-mini", m1);
           ("claude-3-7-sonnet", m2);
           ("qwen-qwq", m3);
           ("grok-3-mini", m4);
           ("gemini-pro", m5);
           ("gemini-2-5-flash-preview", m6);
           ("gemini-2-5-pro-exp", m7);
           ("gemini-2-0-flash", m8) ] /\
       MODELS s = identifiers).
  { intros s H.
    destruct (providers_inv h s H)
      as (mw & c1 & c2 & c3 & c4 & c5 & m1 & m2 & m3 & m4 & m5 & m6 & m7
          & m8 & p & Hmw & Hc1 & Hc2 & Hc3 & Hc4 & Hc5 & Hm1 & Hm2 & Hm3
          & Hm4 & Hm5 & Hm6 & Hm7 & Hm8 & ->).
    cbn [middleware openaiClient anthropicClient groqClient xaiClient
         googleClient languageModels MODELS].
    repeat (split; [assumption|]).
    exists m1, m2, m3, m4, m5, m6, m7, m8.
    repeat (split; [assumption|]). split; reflexivity. }
  split; [|exact Succ].
  intros F.
  destruct (completion_cases (providers h)) as [[s H]|[e H]]; [|eauto].
  exfalso.
  destruct (Succ s H)
    as (Hmw & Hc1 & Hc2 & Hc3 & Hc4 & Hc5 & m1 & m2 & m3 & m4 & m5 & m6
        & m7 & m8 & Hm1 & Hm2 & Hm3 & Hm4 & Hm5 & Hm6 & Hm7 & Hm8 & _).
  destruct F as [[e F]|[[e F]|[[e F]|[[e F]|[[e F]|[[e F]|F]]]]]];
    try congruence.
  destruct F as (mw & c1 & c2 & c3 & c4 & c5 & e & Fmw & F1 & F2 & F3 & F4
                 & F5 & F).
  assert (mw = middleware s) by congruence.
  assert (c1 = openaiClient s) by congruence.
  assert (c2 = anthropicClient s) by congruence.
  assert (c3 = groqClient s) by congruence.
  assert (c4 = xaiClient s) by congruence.
  assert (c5 = googleClient s) by congruence.
  subst.
  destruct F as [F|[F|[F|[F|[F|[F|[F|F]]]]]]]; congruence.
Qed.

End Registry.

(** ** The calls that build the registry *)

Local Abbreviation google_options :=
  {| google :=
      {| responseModalities := [TEXT];
         thinkingConfig := {| thinkingBudget := 1024 |};
         safetySettings :=
           [ {| category := HARM_CATEGORY_DANGEROUS_CONTENT;
                threshold := BLOCK_MEDIUM_AND_ABOVE |};
             {| category := HARM_CATEGORY_HATE_SPEECH;
                threshold := BLOCK_MEDIUM_AND_ABOVE |};
             {| category := HARM_CATEGORY_HARASSMENT;
                threshold := BLOCK_MEDIUM_AND_ABOVE |};
             {| category := HARM_CATEGORY_SEXUALLY_EXPLICIT;
                threshold := BLOCK_MEDIUM_AND_ABOVE |} ] |} |}
  (only parsing).

Section RegistryCalls.
Context `{sdk : SDK}.

(** Each entry of a completed registry is what the calls of its property
    value returned, on the clients and the middleware of the module. *)
Lemma registry_calls (h : Host) (s : Scope) :
  completion (providers h) = Normal s ->
  exists m1 m2 b3 m3 m4 b5 m5 b6 m6 b7 m7 b8 m8,
    model_of (openaiClient s) "gpt-4.1-mini" = Normal m1 /\
    model_of (anthropicClient s) "claude-3-7-sonnet-20250219" = Normal m2 /\
    model_of (groqClient s) "qwen-qwq-32b" = Normal b3 /\
    wrapLanguageModel {| wrap_model := b3;
                         wrap_middleware := middleware s;
                         wrap_providerOptions := None |} = Normal m3 /\
    model_of (xaiClient s) "grok-3-mini-latest" = Normal m4 /\
    model_of (googleClient s) "gemini-pro" = Normal b5 /\
    wrapLanguageModel {| wrap_model := b5;
                         wrap_middleware := middleware s;
                         wrap_providerOptions := Some google_options |}
    = Normal m5 /\
    model_of (googleClient s) "gemini-2.5-flash-preview-04-17"
    = Normal b6 /\
    wrapLanguageModel {| wrap_model := b6;
                         wrap_middleware := middleware s;
                         wrap_providerOptions := Some google_options |}
    = Normal m6 /\
    model_of (googleClient s) "gemini-2.5-pro-exp-03-25" = Normal b7 /\
    wrapLanguageModel {| wrap_model := b7;
                         wrap_middleware := middleware s;
                         wrap_providerOptions := Some google_options |}
    = Normal m7 /\
    model_of (googleClient s) "gemini-2.0-flash" = Normal b8 /\
    wrapLanguageModel {| wrap_model := b8;
                         wrap_middleware := middleware s;
                         wrap_providerOptions := Some google_options |}
    = Normal m8 /\
    languageModels s =
      [ ("gpt-4.1-mini", m1);
        ("claude-3-7-sonnet", m2);
        ("qwen-qwq", m3);
        ("grok-3-mini", m4);
        ("gemini-pro", m5);
        ("gemini-2-5-flash-preview", m6);
        ("gemini-2-5-pro-exp", m7);
        ("gemini-2-0-flash", m8) ].
Proof.
  intros H.
  destruct (providers_inv h s H)
    as (mw & c1 & c2 & c3 & c4 & c5 & m1 & m2 & m3 & m4 & m5 & m6 & m7
        & m8 & p & _ & _ & _ & _ & _ & _ & Hm1 & Hm2 & Hm3 & Hm4 & Hm5
        & Hm6 & Hm7 & Hm8 & ->).
  apply completion_bind_normal in Hm3 as (b3 & Hb3 & Hm3).
  apply completion_bind_normal in Hm5 as (b5 & Hb5 & Hm5).
  apply completion_bind_normal in Hm6 as (b6 & Hb6 & Hm6).
  apply completion_bind_normal in Hm7 as (b7 & Hb7 & Hm7).
  apply completion_bind_normal in Hm8 as (b8 & Hb8 & Hm8).
  exists m1, m2, b3, m3, m4, b5, m5, b6, m6, b7, m7, b8, m8.
  cbn [openaiClient anthropicClient groqClient xaiClient googleClient
       middleware languageModels].
  repeat (split; [assumption|]). reflexivity.
Qed.

End RegistryCalls.

(** ** The registry as the recording SDK sees it *)

(** From a successful run with the recording SDK, replace every client and
    model instance by the record of its construction. *)
Ltac recorded H :=
  let Hmw := fresh "Hmw" in
  let Hc1 := fresh "Hc1" in let Hc2 := fresh "Hc2" in
  let Hc3 := fresh "Hc3" in let Hc4 := fresh "Hc4" in
  let Hc5 := fresh "Hc5" in
  let Hm1 := fresh "Hm1" in let Hm2 := fresh "Hm2" in
  let Hm3 := fresh "Hm3" in let Hm4 := fresh "Hm4" in
  let Hm5 := fresh "Hm5" in let Hm6 := fresh "Hm6" in
  let Hm7 := fresh "Hm7" in let Hm8 := fresh "Hm8" in
  destruct (providers_inv _ _ H)
    as (?mw & ?c1 & ?c2 & ?c3 & ?c4 & ?c5 & ?m1 & ?m2 & ?m3 & ?m4 & ?m5
        & ?m6 & ?m7 & ?m8 & ?p & Hmw & Hc1 & Hc2 & Hc3 & Hc4 & Hc5 & Hm1
        & Hm2 & Hm3 & Hm4 & Hm5 & Hm6 & Hm7 & Hm8 & ->);
  apply completion_bind_normal in Hc1 as (?k1 & _ & Hc1);
  apply completion_bind_normal in Hc2 as (?k2 & _ & Hc2);
  apply completion_bind_normal in Hc3 as (?k3 & _ & Hc3);
  apply completion_bind_normal in Hc4 as (?k4 & _ & Hc4);
  apply completion_bind_normal in Hc5 as (?k5 & _ & Hc5);
  cbv in Hmw, Hc1, Hc2, Hc3, Hc4, Hc5;
  injection Hmw as <-; injection Hc1 as <-; injection Hc2 as <-;
  injection Hc3 as <-; injection Hc4 as <-; injection Hc5 as <-;
  cbv in Hm1, Hm2, Hm3, Hm4, Hm5, Hm6, Hm7, Hm8;
  injection Hm1 as <-; injection Hm2 as <-; injection Hm3 as <-;
  injection Hm4 as <-; injection Hm5 as <-; injection Hm6 as <-;
  injection Hm7 as <-; injection Hm8 as <-;
  cbn [languageModels modelDetails MODELS defaultModel] in *.

(** Case analysis on an identifier looked up in an object. *)
Ltac by_identifier id :=
  cbn [get] in *;
  repeat match goal with
    | H : context [String.eqb ?k id] |- _ =>
        destruct (String.eqb_spec k id) as [<-|?]
    | |- context [String.eqb ?k id] =>
        destruct (String.eqb_spec k id) as [<-|?]
    end.

Section Recorded.
Import Recording.

(** C3. Google-family fixed options.  With every SDK, each of the four
    Gemini entries is what [wrapLanguageModel] returned for a model of the
    Google client and the provider options: response modalities [TEXT]
    only, thinking budget 1024, and the four harm categories, each blocked
    at medium and above.  As recorded, the four Gemini identifiers are
    registered with instances of the Google client, and every instance of
    the Google client in the registry is one of them and carries these
    provider options. *)
Theorem google_entries_fixed_options (h : Host) :
  (forall (sdk : SDK) (s : @Scope sdk),
      completion (@providers sdk h) = Normal s ->
      forall id,
        In id ["gemini-pro"; "gemini-2-5-flash-preview";
               "gemini-2-5-pro-exp"; "gemini-2-0-flash"] ->
        exists version b m,
          model_of (googleClient s) version = Normal b /\
          wrapLanguageModel
            {| wrap_model := b;
               wrap_middleware := middleware s;
               wrap_providerOptions := Some
                 {| google :=
                     {| responseModalities := [TEXT];
                        thinkingConfig := {| thinkingBudget := 1024 |};
                        safetySettings :=
                          [ {| category := HARM_CATEGORY_DANGEROUS_CONTENT;
                               threshold := BLOCK_MEDIUM_AND_ABOVE |};
                            {| category := HARM_CATEGORY_HATE_SPEECH;
                               threshold := BLOCK_MEDIUM_AND_ABOVE |};
                            {| category := HARM_CATEGORY_HARASSMENT;
                               threshold := BLOCK_MEDIUM_AND_ABOVE |};
                            {| category := HARM_CATEGORY_SEXUALLY_EXPLICIT;
                               threshold := BLOCK_MEDIUM_AND_ABOVE |} ]
                     |} |} |}
          = Normal m /\
          get (languageModels s) id = Some m) /\
  (forall s : @Scope Recording.sound,
      completion (providers h) = Normal s ->
      (forall id,
          In id ["gemini-pro"; "gemini-2-5-flash-preview";
                 "gemini-2-5-pro-exp"; "gemini-2-0-flash"] ->
          exists m, get (languageModels s) id = Some m /\
                    familyOf m = Google) /\
      (forall id m,
          get (languageModels s) id = Some m ->
          familyOf m = Google ->
          In id ["gemini-pro"; "gemini-2-5-flash-preview";
                 "gemini-2-5-pro-exp"; "gemini-2-0-flash"] /\
          optionsOf m = Some
            {| google :=
                {| responseModalities := [TEXT];
                   thinkingConfig := {| thinkingBudget := 1024 |};
                   safetySettings :=
                     [ {| category := HARM_CATEGORY_DANGEROUS_CONTENT;
                          threshold := BLOCK_MEDIUM_AND_ABOVE |};
                       {| category := HARM_CATEGORY_HATE_SPEECH;
                          threshold := BLOCK_MEDIUM_AND_ABOVE |};
                       {| category := HARM_CATEGORY_HARASSMENT;
                          threshold := BLOCK_MEDIUM_AND_ABOVE |};
                       {| category := HARM_CATEGORY_SEXUALLY_EXPLICIT;
                          threshold := BLOCK_MEDIUM_AND_ABOVE |} ] |} |})).
Proof.
  split.
  - intros sdk s H id Hid.
    destruct (registry_calls h s H)
      as (m1 & m2 & b3 & m3 & m4 & b5 & m5 & b6 & m6 & b7 & m7 & b8 & m8
          & _ & _ & _ & _ & _ & Hb5 & Hm5 & Hb6 & Hm6 & Hb7 & Hm7 & Hb8
          & Hm8 & ->).
    simpl in Hid. destruct Hid as [<-|[<-|[<-|[<-|[]]]]].
    + exists "gemini-pro", b5, m5. now repeat split.
    + exists "gemini-2.5-flash-preview-04-17", b6, m6. now repeat split.
    + exists "gemini-2.5-pro-exp-03-25", b7, m7. now repeat split.
    + exists "gemini-2.0-flash", b8, m8. now repeat split.
  - intros s H. recorded H. split.
    + intros id Hid. simpl in Hid.
      destruct Hid as [<-|[<-|[<-|[<-|[]]]]]; eexists; split; reflexivity.
    + intros id m Hget Hfam.
      by_identifier id; try discriminate;
        injection Hget as <-; try discriminate Hfam;
        (split; [simpl; tauto | reflexivity]).
Qed.

(** C10. For every identifier but ["qwen-qwq"], the [apiVersion] of the
    catalog record is the version string the model instance was requested
    with; for ["qwen-qwq"] the catalog says ["qwen-qwq"] and the instance
    was requested with ["qwen-qwq-32b"]. *)
Theorem apiVersion_matches_backend (h : Host) (s : @Scope Recording.sound)
        (id : string) (m : RModel) (info : ModelInfo) :
  completion (providers h) = Normal s ->
  get (languageModels s) id = Some m ->
  get (modelDetails s) id = Some info ->
  (id <> "qwen-qwq" -> apiVersion info = backendVersion m) /\
  (id = "qwen-qwq" ->
   apiVersion info = "qwen-qwq" /\ backendVersion m = "qwen-qwq-32b").
Proof.
  intros H Hm Hinfo. recorded H.
  let v := eval vm_compute in modelDetails_literal in
    change modelDetails_literal with v in Hinfo.
  by_identifier id; try discriminate;
    injection Hm as <-; injection Hinfo as <-;
    (split; [intros Hne | intros He]);
    try reflexivity; try congruence; try discriminate; now split.
Qed.

(** *** Reasoning extraction *)

Lemma length_append_cons (a r : string) (c : ascii) :
  exists n, String.length (a ++ String c r) = S n.
Proof. destruct a; simpl; eauto. Qed.

(** One tagged segment between texts free of ["<"] is taken out. *)
Lemma extractReasoning_tagged (tag A B C : string) :
  lacks "<" A = true -> lacks "<" B = true -> lacks "<" C = true ->
  extractReasoning tag
    (A ++ ("<" ++ tag ++ ">") ++ B ++ ("</" ++ tag ++ ">") ++ C)
  = {| text := (A ++ C)%string; reasoning := B |}.
Proof.
  intros HA HB HC. unfold extractReasoning.
  change (("<" ++ tag ++ ">")%string) with (String "<" (tag ++ ">")).
  change (("</" ++ tag ++ ">")%string)
    with (String "<" (String "/" (tag ++ ">"))).
  destruct (length_append_cons A
              ((tag ++ ">") ++ B ++ String "<" (String "/" (tag ++ ">"))
               ++ C) "<") as [n Hn].
  change (String "<" (tag ++ ">") ++ ?r)%string
    with (String "<" ((tag ++ ">") ++ r)) in Hn |- *.
  rewrite Hn.
  change (String "<" ((tag ++ ">") ++ ?r))
    with (String "<" (tag ++ ">") ++ r)%string.
  cbn [extract_segments].
  rewrite (split_on_lacks "<" (tag ++ ">") A _ HA).
  rewrite (split_on_lacks "<" (String "/" (tag ++ ">")) B C HB).
  assert (E : extract_segments n (String "<" (tag ++ ">"))
                (String "<" (String "/" (tag ++ ">"))) C
              = (C, EmptyString)).
  { destruct n; [reflexivity|]. cbn [extract_segments].
    now rewrite (split_on_absent "<" (tag ++ ">") C HC). }
  rewrite E. now rewrite append_empty_r.
Qed.

(** C4. Reasoning extraction.  Every wrapped instance of the registry is
    wrapped with the middleware of tag ["think"]; when its base instance
    generates [A<think>B</think>C], with [A], [B] and [C] free of ["<"],
    the wrapped instance yields the text [AC] and the reasoning [B]. *)
Theorem wrapped_models_extract_think
        (h : Host) (s : @Scope Recording.sound) (id : string)
        (base : RModel) (mw : MiddlewareSettings)
        (opts : option ProviderOptions) :
  completion (providers h) = Normal s ->
  get (languageModels s) id = Some (WrappedModel base mw opts) ->
  tagName mw = "think" /\
  forall (backend : RClient -> string -> string) (A B C : string),
    lacks "<" A = true -> lacks "<" B = true -> lacks "<" C = true ->
    generate backend base
    = {| text := (A ++ "<think>" ++ B ++ "</think>" ++ C)%string;
         reasoning := EmptyString |} ->
    generate backend (WrappedModel base mw opts)
    = {| text := (A ++ C)%string; reasoning := B |}.
Proof.
  intros H Hget.
  assert (T : tagName mw = "think").
  { recorded H.
    by_identifier id; try discriminate; now injection Hget as _ <- _. }
  split; [exact T|].
  intros backend A B C HA HB HC Hgen.
  cbn [generate]. rewrite Hgen, T. cbn [text reasoning].
  replace (extractReasoning "think" _)
    with {| text := (A ++ C)%string; reasoning := B |};
    [reflexivity|].
  symmetry. exact (extractReasoning_tagged "think" A B C HA HB HC).
Qed.

End Recorded.

(** ** The theorems at the hosts of the examples *)

Lemma registry_catalog_parity_witness :
  exists s,
    completion (@providers Recording.sound Examples.browser) = Normal s /\
    ((forall id, get (languageModels s) id <> None <->
                 get (modelDetails s) id <> None) /\
     (forall id, get (languageModels s) id <> None ->
                 occurrences (modelDetails s) id = 1) /\
     (forall id, get (modelDetails s) id <> None ->
                 occurrences (languageModels s) id = 1) /\
     (forall id, In id (MODELS s) ->
                 exists info, get (modelDetails s) id = Some info)).
Proof.
  eexists. split; [reflexivity|].
  apply (registry_catalog_parity (sdk := Recording.sound) Examples.browser).
  reflexivity.
Defined.

Lemma defaultModel_in_MODELS_witness :
  exists s,
    completion (@providers Recording.sound Examples.server) = Normal s /\
    defaultModel s = "qwen-qwq" /\ In (defaultModel s) (MODELS s).
Proof.
  eexists. split; [reflexivity|].
  apply (defaultModel_in_MODELS (sdk := Recording.sound) Examples.server).
  reflexivity.
Defined.

(** With the Groq factory throwing, the top level throws; with every
    factory returning, the registry is complete. *)
Lemma providers_all_or_nothing_witness :
  construction_fails (sdk := Recording.sdk Examples.groq_broken)
                     Examples.browser /\
  (exists e,
      completion (@providers (Recording.sdk Examples.groq_broken)
                             Examples.browser) = Throw e) /\
  (exists s,
      completion (@providers Recording.sound Examples.browser) = Normal s /\
      MODELS s = identifiers).
Proof.
  assert (F : construction_fails (sdk := Recording.sdk Examples.groq_broken)
                                 Examples.browser).
  { right; right; right; left. eexists. reflexivity. }
  split; [exact F|]. split.
  - exact (proj1 (providers_all_or_nothing
                    (sdk := Recording.sdk Examples.groq_broken)
                    Examples.browser) F).
  - eexists. split; [reflexivity|].
    destruct (proj2 (providers_all_or_nothing (sdk := Recording.sound)
                       Examples.browser) _ eq_refl)
      as (_ & _ & _ & _ & _ & _ & m1 & m2 & m3 & m4 & m5 & m6 & m7 & m8
          & _ & _ & _ & _ & _ & _ & _ & _ & _ & E).
    exact E.
Defined.

Lemma google_entries_fixed_options_witness :
  exists s m,
    completion (@providers Recording.sound Examples.browser) = Normal s /\
    get (languageModels s) "gemini-2-5-pro-exp" = Some m /\
    Recording.familyOf m = Recording.Google /\
    Recording.optionsOf m = Some
      {| google :=
          {| responseModalities := [TEXT];
             thinkingConfig := {| thinkingBudget := 1024 |};
             safetySettings :=
               [ {| category := HARM_CATEGORY_DANGEROUS_CONTENT;
                    threshold := BLOCK_MEDIUM_AND_ABOVE |};
                 {| category := HARM_CATEGORY_HATE_SPEECH;
                    threshold := BLOCK_MEDIUM_AND_ABOVE |};
                 {| category := HARM_CATEGORY_HARASSMENT;
                    threshold := BLOCK_MEDIUM_AND_ABOVE |};
                 {| category := HARM_CATEGORY_SEXUALLY_EXPLICIT;
                    threshold := BLOCK_MEDIUM_AND_ABOVE |} ] |} |} /\
    exists version b,
      model_of (googleClient s) version = Normal b /\
      Recording.backendVersion m = version.
Proof.
  eexists. eexists.
  split; [reflexivity|]. split; [reflexivity|]. split; [reflexivity|].
  split.
  - apply (proj2 (proj2 (google_entries_fixed_options Examples.browser)
                    _ eq_refl)
                 "gemini-2-5-pro-exp" _ eq_refl eq_refl).
  - destruct (proj1 (google_entries_fixed_options Examples.browser)
                Recording.sound _ eq_refl "gemini-2-5-pro-exp")
      as (version & b & m & Hb & Hm & Hget); [simpl; auto|].
    exists version, b. split; [exact Hb|].
    injection Hget as <-. injection Hb as <-. injection Hm as <-.
    reflexivity.
Defined.

Lemma wrapped_models_extract_think_witness :
  exists s base mw opts,
    completion (@providers Recording.sound Examples.browser) = Normal s /\
    get (languageModels s) "qwen-qwq"
    = Some (Recording.WrappedModel base mw opts) /\
    Recording.generate Examples.thinking_backend base
    = {| Recording.text := "A<think>B</think>C";
         Recording.reasoning := "" |} /\
    tagName mw = "think" /\
    Recording.generate Examples.thinking_backend
                       (Recording.WrappedModel base mw opts)
    = {| Recording.text := "AC"; Recording.reasoning := "B" |}.
Proof.
  do 4 eexists.
  split; [reflexivity|]. split; [reflexivity|]. split; [reflexivity|].
  split.
  - apply (proj1 (wrapped_models_extract_think
                    Examples.browser _ "qwen-qwq" _ _ _ eq_refl eq_refl)).
  - apply (proj2 (wrapped_models_extract_think
                    Examples.browser _ "qwen-qwq" _ _ _ eq_refl eq_refl)
                 Examples.thinking_backend "A" "B" "C"
                 eq_refl eq_refl eq_refl eq_refl).
Defined.

Lemma apiVersion_matches_backend_witness :
  exists s m info m' info',
    completion (@providers Recording.sound Examples.browser) = Normal s /\
    get (languageModels s) "gemini-2-0-flash" = Some m /\
    get (modelDetails s) "gemini-2-0-flash" = Some info /\
    apiVersion info = Recording.backendVersion m /\
    get (languageModels s) "qwen-qwq" = Some m' /\
    get (modelDetails s) "qwen-qwq" = Some info' /\
    apiVersion info' = "qwen-qwq" /\
    Recording.backendVersion m' = "qwen-qwq-32b".
Proof.
  do 5 eexists.
  split; [reflexivity|]. split; [reflexivity|]. split; [reflexivity|].
  split.
  - apply (proj1 (apiVersion_matches_backend
                    Examples.browser _ "gemini-2-0-flash" _ _
                    eq_refl eq_refl eq_refl)).
    discriminate.
  - split; [reflexivity|]. split; [reflexivity|].
    apply (proj2 (apiVersion_matches_backend
                    Examples.browser _ "qwen-qwq" _ _
                    eq_refl eq_refl eq_refl)).
    reflexivity.
Defined.

(* ================================================================== *)
(** * Further properties of the module *)

(** ** Effects of sequenced computations *)

Lemma effects_bind {A B} (m : JS A) (f : A -> JS B) :
  effects (bind m f) =
  effects m ++ match completion m with
               | Normal a => effects (f a)
               | Throw _ => []
               end.
Proof.
  destruct m as [l [a|e]]; unfold effects, completion; simpl.
  - now destruct (f a).
  - now rewrite app_nil_r.
Qed.

Lemma completion_bind {A B} (m : JS A) (f : A -> JS B) :
  completion (bind m f) =
  match completion m with
  | Normal a => completion (f a)
  | Throw e => Throw e
  end.
Proof.
  destruct m as [l [a|e]]; unfold completion; simpl; [|reflexivity].
  now destruct (f a).
Qed.

Lemma effects_bind_call {A B} (m : JS A) (g : A -> Completion B) :
  effects (bind m (fun a => call (g a))) = effects m.
Proof.
  rewrite effects_bind. destruct (completion m); simpl; apply app_nil_r.
Qed.

(** ** More on the credential resolver *)

Lemma getApiKey_effects_reads (h : Host) (k : string) (e : Effect) :
  In e (effects (getApiKey h k)) -> e = EnvRead k \/ e = StoreRead k.
Proof.
  rewrite getApiKey_run.
  destruct (truthy (process_env h k));
    [|destruct (window h) as [w|];
      [destruct (localStorage w) as [[storage|]|x]|]];
    simpl; intuition auto.
Qed.

(** X1. Store fallback.  When the environment value is absent or empty and
    the window's store can be read and holds a non-empty value for the key,
    [getApiKey] returns the store value, after one read of the environment
    and one of the store. *)
Theorem getApiKey_store_fallback
        (h : Host) (k : string) (w : Window) (storage : Storage)
        (v : string) :
  (process_env h k = None \/ process_env h k = Some EmptyString) ->
  window h = Some w ->
  localStorage w = Normal (Some storage) ->
  getItem storage k = Some v ->
  v <> EmptyString ->
  completion (getApiKey h k) = Normal (Some v) /\
  effects (getApiKey h k) = [EnvRead k; StoreRead k].
Proof.
  intros He Hw Hs Hv Hne. rewrite getApiKey_run.
  apply falsy_cases in He. rewrite He, Hw, Hs. simpl.
  split; [|reflexivity].
  unfold or_undefined.
  assert (T' : truthy (getItem storage k) = true)
    by (apply truthy_spec; eauto).
  now rewrite T', Hv.
Qed.

Lemma getApiKey_store_fallback_witness :
  completion (getApiKey Examples.browser "GROQ_API_KEY")
  = Normal (Some "gsk-store") /\
  effects (getApiKey Examples.browser "GROQ_API_KEY")
  = [EnvRead "GROQ_API_KEY"; StoreRead "GROQ_API_KEY"].
Proof.
  eapply (getApiKey_store_fallback Examples.browser "GROQ_API_KEY").
  - right; reflexivity.
  - reflexivity.
  - reflexivity.
  - reflexivity.
  - discriminate.
Defined.

(** X2. [getApiKey] touches only its own key.  It always starts by reading
    the environment variable of the key, performs at most two reads, and
    every read is of the key it was asked for: it never reads another key,
    registers a listener or reloads. *)
Theorem getApiKey_reads_only_its_key (h : Host) (k : string) :
  (exists rest, effects (getApiKey h k) = EnvRead k :: rest) /\
  length (effects (getApiKey h k)) <= 2 /\
  Forall (fun e => e = EnvRead k \/ e = StoreRead k)
         (effects (getApiKey h k)).
Proof.
  split; [|split].
  - rewrite getApiKey_run.
    destruct (truthy (process_env h k));
      [|destruct (window h) as [w|];
        [destruct (localStorage w) as [[storage|]|x]|]];
      simpl; eauto.
  - rewrite getApiKey_run.
    destruct (truthy (process_env h k));
      [|destruct (window h) as [w|];
        [destruct (localStorage w) as [[storage|]|x]|]];
      simpl; lia.
  - apply Forall_forall. intros e. apply getApiKey_effects_reads.
Qed.

(** X3. The outcome for a key depends on that key only.  Two hosts that
    agree on the environment value of the key, on having a window, and on
    what reading the store gives for the key (the same item, or the same
    failure), give the same outcome and the same reads, whatever their
    other variables and items are. *)
Theorem getApiKey_depends_on_key_only (h h' : Host) (k : string) :
  process_env h k = process_env h' k ->
  match window h, window h' with
  | Some w, Some w' =>
      match localStorage w, localStorage w' with
      | Normal (Some storage), Normal (Some storage') =>
          getItem storage k = getItem storage' k
      | Normal None, Normal None => True
      | Throw e, Throw e' => e = e'
      | _, _ => False
      end
  | None, None => True
  | _, _ => False
  end ->
  getApiKey h k = getApiKey h' k.
Proof.
  intros He Hw. rewrite !getApiKey_run, <- He.
  destruct (truthy (process_env h k)); [reflexivity|].
  destruct (window h) as [w|], (window h') as [w'|];
    try contradiction; [|reflexivity].
  destruct (localStorage w) as [[storage|]|e],
           (localStorage w') as [[storage'|]|e'];
    try contradiction; try reflexivity; now rewrite Hw.
Qed.

Lemma getApiKey_depends_on_key_only_witness :
  getApiKey Examples.browser "GROQ_API_KEY"
  = getApiKey MoreExamples.browser_rotated "GROQ_API_KEY".
Proof.
  apply (getApiKey_depends_on_key_only
           Examples.browser MoreExamples.browser_rotated "GROQ_API_KEY").
  - reflexivity.
  - reflexivity.
Defined.

(** X18. When [getApiKey] throws.  It throws exactly when the environment
    value of the key is absent or empty and the host has a window whose
    store cannot be read: what the read of [window.localStorage] raises is
    thrown unchanged, and a window without the property gives a
    TypeError. *)
Theorem getApiKey_throws_iff (h : Host) (k : string) (e : Exn) :
  completion (getApiKey h k) = Throw e <->
  (process_env h k = None \/ process_env h k = Some EmptyString) /\
  exists w,
    window h = Some w /\
    (localStorage w = Throw e \/
     localStorage w = Normal None /\
     e = Error "TypeError: window.localStorage is undefined").
Proof.
  rewrite getApiKey_run, <- falsy_cases.
  destruct (truthy (process_env h k)); simpl.
  - split; [discriminate | intros [H _]; discriminate].
  - destruct (window h) as [w|]; simpl.
    + destruct (localStorage w) as [[storage|]|x] eqn:S; simpl; split;
        try discriminate.
      * intros (_ & w' & [= <-] & [H|[H _]]); congruence.
      * intros [= <-]. split; [reflexivity|]. exists w. split; auto.
      * intros (_ & w' & [= <-] & [H|[_ ->]]); congruence.
      * intros [= <-]. split; [reflexivity|]. exists w. split; auto.
      * intros (_ & w' & [= <-] & [H|[H _]]); congruence.
    + split; [discriminate | intros (_ & w & H & _); discriminate].
Qed.

Lemma getApiKey_throws_iff_witness :
  completion (getApiKey MoreExamples.storage_denied "GROQ_API_KEY")
  = Throw (Error "SecurityError").
Proof.
  apply (proj2 (getApiKey_throws_iff MoreExamples.storage_denied
                  "GROQ_API_KEY" (Error "SecurityError"))).
  split; [left; reflexivity|].
  eexists. split; [reflexivity|]. left; reflexivity.
Defined.

(** ** Effects of the module top level *)

Section ProvidersEffects.
Context `{sdk : SDK}.

Lemma effects_init_middleware : effects init_middleware = [].
Proof. reflexivity. Qed.

Lemma effects_init_openaiClient (h : Host) :
  effects (init_openaiClient h) = effects (getApiKey h "OPENAI_API_KEY").
Proof. apply effects_bind_call. Qed.

Lemma effects_init_anthropicClient (h : Host) :
  effects (init_anthropicClient h)
  = effects (getApiKey h "ANTHROPIC_API_KEY").
Proof. apply effects_bind_call. Qed.

Lemma effects_init_groqClient (h : Host) :
  effects (init_groqClient h) = effects (getApiKey h "GROQ_API_KEY").
Proof. apply effects_bind_call. Qed.

Lemma effects_init_xaiClient (h : Host) :
  effects (init_xaiClient h) = effects (getApiKey h "XAI_API_KEY").
Proof. apply effects_bind_call. Qed.

Lemma effects_init_googleClient (h : Host) :
  effects (init_googleClient h)
  = effects (getApiKey h "GOOGLE_GENERATIVE_AI_API_KEY").
Proof. apply effects_bind_call. Qed.

Lemma effects_entry_gpt_4_1_mini c : effects (entry_gpt_4_1_mini c) = [].
Proof. reflexivity. Qed.

Lemma effects_entry_claude_3_7_sonnet c :
  effects (entry_claude_3_7_sonnet c) = [].
Proof. reflexivity. Qed.

Lemma effects_entry_qwen_qwq c mw : effects (entry_qwen_qwq c mw) = [].
Proof. apply effects_bind_call. Qed.

Lemma effects_entry_grok_3_mini c : effects (entry_grok_3_mini c) = [].
Proof. reflexivity. Qed.

Lemma effects_entry_gemini_pro c mw : effects (entry_gemini_pro c mw) = [].
Proof. apply effects_bind_call. Qed.

Lemma effects_entry_gemini_2_5_flash_preview c mw :
  effects (entry_gemini_2_5_flash_preview c mw) = [].
Proof. apply effects_bind_call. Qed.

Lemma effects_entry_gemini_2_5_pro_exp c mw :
  effects (entry_gemini_2_5_pro_exp c mw) = [].
Proof. apply effects_bind_call. Qed.

Lemma effects_entry_gemini_2_0_flash c mw :
  effects (entry_gemini_2_0_flash c mw) = [].
Proof. apply effects_bind_call. Qed.

Lemma register_storageListener_run (h : Host) :
  register_storageListener h =
  (match window h with
   | Some _ => [AddEventListener "storage"]
   | None => []
   end, Normal tt).
Proof. unfold register_storageListener. now destruct (window h). Qed.

End ProvidersEffects.

Create Rewrite HintDb step_effects.

#[local] Hint Rewrite
  @effects_init_middleware @effects_init_openaiClient
  @effects_init_anthropicClient @effects_init_groqClient
  @effects_init_xaiClient @effects_init_googleClient
  @effects_entry_gpt_4_1_mini @effects_entry_claude_3_7_sonnet
  @effects_entry_qwen_qwq @effects_entry_grok_3_mini
  @effects_entry_gemini_pro @effects_entry_gemini_2_5_flash_preview
  @effects_entry_gemini_2_5_pro_exp @effects_entry_gemini_2_0_flash
  : step_effects.

(** Follow the top level statement by statement, with one case for each
    statement that throws and one for the run to the end. *)
Ltac unroll :=
  unfold providers;
  repeat (cbv beta zeta;
          rewrite ?effects_bind, ?completion_bind;
          match goal with
          | |- context [match completion ?m with
                        | Normal _ => _
                        | Throw _ => _
                        end] =>
              let a := fresh "a" in
              let x := fresh "x" in
              let E := fresh "E" in
              destruct (completion m) as [a|x] eqn:E
          end);
  autorewrite with step_effects;
  cbn [app].

(** With every construction known to have returned, [construction_fails]
    is absurd. *)
Ltac not_failed F :=
  unfold construction_fails in F;
  destruct F as [[? F]|[[? F]|[[? F]|[[? F]|[[? F]|[[? F]|F]]]]]];
  try congruence;
  destruct F as (? & ? & ? & ? & ? & ? & ? & ? & ? & ? & ? & ? & ? & F);
  destruct F as [F|[F|[F|[F|[F|[F|[F|F]]]]]]]; congruence.

(** Split the membership in a concatenation of effect lists. *)
Ltac in_pieces H :=
  repeat match type of H with
    | In _ (_ ++ _) => apply in_app_or in H as [H|H]
    end.

Section ProvidersRuns.
Context `{sdk : SDK}.

(** Where an effect of the top level comes from. *)
Lemma providers_effect_origin (h : Host) (e : Effect) :
  In e (effects (providers h)) ->
  (exists k,
      In k ["OPENAI_API_KEY"; "ANTHROPIC_API_KEY"; "GROQ_API_KEY";
            "XAI_API_KEY"; "GOOGLE_GENERATIVE_AI_API_KEY"] /\
      In e (effects (getApiKey h k))) \/
  (e = AddEventListener "storage" /\
   window h <> None /\ ~ construction_fails h).
Proof.
  unroll; intros Hin; in_pieces Hin;
    try (destruct Hin; fail);
    try (left; eexists; split; [|exact Hin]; simpl; tauto);
    rewrite register_storageListener_run in Hin;
    destruct (window h) as [w|]; simpl in Hin; try tauto;
    destruct Hin as [<-|[]]; right;
    (split; [reflexivity | split; [discriminate|]]);
    intros F; not_failed F.
Qed.

(** X4. Effects of a completed initialisation.  When the top level
    completes, it has resolved the five credentials in source order, each
    once, then registered the storage listener once if there is a window,
    and has done nothing else. *)
Theorem providers_effects_on_completion (h : Host) (s : Scope) :
  completion (providers h) = Normal s ->
  effects (providers h) =
  effects (getApiKey h "OPENAI_API_KEY") ++
  effects (getApiKey h "ANTHROPIC_API_KEY") ++
  effects (getApiKey h "GROQ_API_KEY") ++
  effects (getApiKey h "XAI_API_KEY") ++
  effects (getApiKey h "GOOGLE_GENERATIVE_AI_API_KEY") ++
  match window h with
  | Some _ => [AddEventListener "storage"]
  | None => []
  end.
Proof.
  revert s. unroll; intros s H; try discriminate H.
  rewrite register_storageListener_run. cbn [effects fst call ret].
  now rewrite !app_nil_r.
Qed.

(** X5. The top level never reloads the page, and when the construction
    of the middleware, of a client or of a registry entry throws, it has
    registered no listener: the registration comes after the registry. *)
Theorem providers_failure_leaves_no_listener (h : Host) :
  ~ In Reload (effects (providers h)) /\
  (construction_fails h ->
   forall type, ~ In (AddEventListener type) (effects (providers h))).
Proof.
  split.
  - intros Hin.
    destruct (providers_effect_origin h _ Hin) as [(k & _ & Hk)|(He & _)];
      [|discriminate].
    apply getApiKey_effects_reads in Hk as [Hk|Hk]; discriminate.
  - intros F type Hin.
    destruct (providers_effect_origin h _ Hin)
      as [(k & _ & Hk)|(_ & _ & Hn)]; [|now apply Hn].
    apply getApiKey_effects_reads in Hk as [Hk|Hk]; discriminate.
Qed.

(** X8. Every credential the top level reads is watched by the storage
    listener: a storage event for a key that the top level read from the
    environment or from the store reloads the page. *)
Theorem credentials_read_trigger_reload
        (h : Host) (k : string) (event : StorageEvent) :
  In (EnvRead k) (effects (providers h)) \/
  In (StoreRead k) (effects (providers h)) ->
  key event = Some k ->
  effects (storageListener event) = [Reload].
Proof.
  intros Hin Hk.
  assert (K : In k ["OPENAI_API_KEY"; "ANTHROPIC_API_KEY"; "GROQ_API_KEY";
                    "XAI_API_KEY"; "GOOGLE_GENERATIVE_AI_API_KEY"]).
  { destruct Hin as [Hin|Hin];
      (destruct (providers_effect_origin h _ Hin)
        as [(k0 & Hk0 & Hr)|(He & _)]; [|discriminate]);
      apply getApiKey_effects_reads in Hr as [Hr|Hr];
      try discriminate; now injection Hr as ->. }
  unfold storageListener. rewrite Hk.
  simpl in K.
  destruct K as [<-|[<-|[<-|[<-|[<-|[]]]]]]; reflexivity.
Qed.

End ProvidersRuns.

(** ** When the top level throws, and when it cannot *)

Section ProvidersOutcome.
Context `{sdk : SDK}.




End ProvidersOutcome.

(** ** What the exported values depend on *)

Section Exports.
Context `{sdk : SDK}.

(** X7. Each client is made from its own credential.  When the top level
    completes, every client is what its own factory returned for the
    credential that [getApiKey] resolved under the key name of that
    provider; only the Google client is given a base URL. *)
Theorem clients_get_their_own_credentials (h : Host) (s : Scope) :
  completion (providers h) = Normal s ->
  exists k1 k2 k3 k4 k5,
    completion (getApiKey h "OPENAI_API_KEY") = Normal k1 /\
    createOpenAI {| apiKey := k1; baseURL := None |}
    = Normal (openaiClient s) /\
    completion (getApiKey h "ANTHROPIC_API_KEY") = Normal k2 /\
    createAnthropic {| apiKey := k2; baseURL := None |}
    = Normal (anthropicClient s) /\
    completion (getApiKey h "GROQ_API_KEY") = Normal k3 /\
    createGroq {| apiKey := k3; baseURL := None |}
    = Normal (groqClient s) /\
    completion (getApiKey h "XAI_API_KEY") = Normal k4 /\
    createXai {| apiKey := k4; baseURL := None |}
    = Normal (xaiClient s) /\
    completion (getApiKey h "GOOGLE_GENERATIVE_AI_API_KEY") = Normal k5 /\
    createGoogleGenerativeAI
      {| apiKey := k5;
         baseURL := Some "https://generativelanguage.googleapis.com/v1beta" |}
    = Normal (googleClient s).
Proof.
  intros H.
  destruct (providers_inv h s H)
    as (mw & c1 & c2 & c3 & c4 & c5 & m1 & m2 & m3 & m4 & m5 & m6 & m7
        & m8 & p & _ & Hc1 & Hc2 & Hc3 & Hc4 & Hc5 & _ & _ & _ & _ & _ & _
        & _ & _ & ->).
  apply completion_bind_normal in Hc1 as (k1 & Hk1 & Hc1).
  apply completion_bind_normal in Hc2 as (k2 & Hk2 & Hc2).
  apply completion_bind_normal in Hc3 as (k3 & Hk3 & Hc3).
  apply completion_bind_normal in Hc4 as (k4 & Hk4 & Hc4).
  apply completion_bind_normal in Hc5 as (k5 & Hk5 & Hc5).
  exists k1, k2, k3, k4, k5.
  cbn [openaiClient anthropicClient groqClient xaiClient googleClient].
  repeat (split; [assumption|]). assumption.
Qed.

(** X9. [MODELS] lists exactly the keys of the registry, each once: an
    identifier is in [MODELS] if and only if the registry has an entry for
    it, and an identifier outside the list has none. *)
Theorem MODELS_are_the_registry_keys (h : Host) (s : Scope) :
  completion (providers h) = Normal s ->
  NoDup (MODELS s) /\
  length (MODELS s) = length (languageModels s) /\
  forall id, In id (MODELS s) <->
             exists m, get (languageModels s) id = Some m.
Proof.
  intros H.
  destruct (providers_inv h s H)
    as (mw & c1 & c2 & c3 & c4 & c5 & m1 & m2 & m3 & m4 & m5 & m6 & m7
        & m8 & p & _ & _ & _ & _ & _ & _ & _ & _ & _ & _ & _ & _ & _ & _
        & ->).
  cbn [languageModels MODELS].
  set (registry := [("gpt-4.1-mini", m1); ("claude-3-7-sonnet", m2);
                    ("qwen-qwq", m3); ("grok-3-mini", m4);
                    ("gemini-pro", m5); ("gemini-2-5-flash-preview", m6);
                    ("gemini-2-5-pro-exp", m7); ("gemini-2-0-flash", m8)]).
  assert (Kr : identifiers = map fst registry) by reflexivity.
  split; [|split].
  - rewrite Kr. change registry with (literal registry).
    apply literal_NoDup.
  - reflexivity.
  - intros id. rewrite Kr, <- get_In.
    destruct (get registry id) as [m|]; split; eauto; try congruence.
    intros [m Hm]. discriminate.
Qed.

End Exports.

(** X10. The exported identifier list, the catalog and the default
    identifier are the same on every host and with every SDK: they do not
    depend on credentials, on the window or on what the factories return. *)
Theorem exports_do_not_depend_on_host
        (sdk1 sdk2 : SDK) (h1 h2 : Host)
        (s1 : @Scope sdk1) (s2 : @Scope sdk2) :
  completion (@providers sdk1 h1) = Normal s1 ->
  completion (@providers sdk2 h2) = Normal s2 ->
  MODELS s1 = MODELS s2 /\
  modelDetails s1 = modelDetails s2 /\
  defaultModel s1 = defaultModel s2.
Proof.
  intros H1 H2.
  destruct (providers_inv h1 s1 H1)
    as (mw & c1 & c2 & c3 & c4 & c5 & m1 & m2 & m3 & m4 & m5 & m6 & m7
        & m8 & p & _ & _ & _ & _ & _ & _ & _ & _ & _ & _ & _ & _ & _ & _
        & ->).
  destruct (providers_inv h2 s2 H2)
    as (mw' & c1' & c2' & c3' & c4' & c5' & m1' & m2' & m3' & m4' & m5'
        & m6' & m7' & m8' & p' & _ & _ & _ & _ & _ & _ & _ & _ & _ & _ & _
        & _ & _ & _ & ->).
  repeat split.
Qed.

(** ** The catalog *)

(** X14. Catalog records are told apart by their display name and by their
    version string: two identifiers with the same [name] or the same
    [apiVersion] are the same identifier, and every record has three
    capability tags. *)
Theorem catalog_records_distinct
        (id1 id2 : string) (i1 i2 : ModelInfo) :
  get modelDetails_literal id1 = Some i1 ->
  get modelDetails_literal id2 = Some i2 ->
  (name i1 = name i2 -> id1 = id2) /\
  (apiVersion i1 = apiVersion i2 -> id1 = id2) /\
  length (capabilities i1) = 3.
Proof.
  let v := eval vm_compute in modelDetails_literal in
    change modelDetails_literal with v.
  intros H1 H2.
  by_identifier id1; try discriminate; injection H1 as <-;
    by_identifier id2; try discriminate; injection H2 as <-;
    (split; [|split]); try reflexivity; intros; try discriminate.
Qed.

(** ** How the entries are built *)

Section RegistryShape.
Context `{sdk : SDK}.

(** X11. Which entries are wrapped.  The entries of ["gpt-4.1-mini"],
    ["claude-3-7-sonnet"] and ["grok-3-mini"] are what their client
    returned for a version string.  The entries of ["qwen-qwq"] and of the
    four Gemini identifiers are what [wrapLanguageModel] returned for a
    model of the Groq or Google client and the one middleware of the
    module; the call is given no provider options for ["qwen-qwq"], and is
    given some for the Gemini identifiers. *)
Theorem wrapped_entries_and_options (h : Host) (s : Scope) :
  completion (providers h) = Normal s ->
  (forall id,
      In id ["gpt-4.1-mini"; "claude-3-7-sonnet"; "grok-3-mini"] ->
      exists c version m,
        In c [openaiClient s; anthropicClient s; xaiClient s] /\
        model_of c version = Normal m /\
        get (languageModels s) id = Some m) /\
  (forall id,
      In id ["qwen-qwq"; "gemini-pro"; "gemini-2-5-flash-preview";
             "gemini-2-5-pro-exp"; "gemini-2-0-flash"] ->
      exists c version b o m,
        In c [groqClient s; googleClient s] /\
        model_of c version = Normal b /\
        wrapLanguageModel {| wrap_model := b;
                             wrap_middleware := middleware s;
                             wrap_providerOptions := o |} = Normal m /\
        get (languageModels s) id = Some m /\
        (o = None <-> id = "qwen-qwq")).
Proof.
  intros H.
  destruct (registry_calls h s H)
    as (m1 & m2 & b3 & m3 & m4 & b5 & m5 & b6 & m6 & b7 & m7 & b8 & m8
        & Hm1 & Hm2 & Hb3 & Hm3 & Hm4 & Hb5 & Hm5 & Hb6 & Hm6 & Hb7 & Hm7
        & Hb8 & Hm8 & ->).
  split; intros id Hid; simpl in Hid.
  - destruct Hid as [<-|[<-|[<-|[]]]].
    + exists (openaiClient s), "gpt-4.1-mini", m1. simpl. auto.
    + exists (anthropicClient s), "claude-3-7-sonnet-20250219", m2.
      simpl. auto.
    + exists (xaiClient s), "grok-3-mini-latest", m4. simpl. auto.
  - destruct Hid as [<-|[<-|[<-|[<-|[<-|[]]]]]].
    + exists (groqClient s), "qwen-qwq-32b", b3, None, m3.
      repeat split; simpl; auto.
    + exists (googleClient s), "gemini-pro", b5, (Some google_options), m5.
      repeat (split; [solve [simpl; auto]|]).
      split; intros E; discriminate E.
    + exists (googleClient s), "gemini-2.5-flash-preview-04-17", b6, (Some google_options), m6.
      repeat (split; [solve [simpl; auto]|]).
      split; intros E; discriminate E.
    + exists (googleClient s), "gemini-2.5-pro-exp-03-25", b7, (Some google_options), m7.
      repeat (split; [solve [simpl; auto]|]).
      split; intros E; discriminate E.
    + exists (googleClient s), "gemini-2.0-flash", b8, (Some google_options), m8.
      repeat (split; [solve [simpl; auto]|]).
      split; intros E; discriminate E.
Qed.

(** X13. The safety settings cover the whole [HarmCategory] type.  The
    provider options that the [wrapLanguageModel] call of each Gemini entry
    is given have, for every harm category, exactly one safety setting of
    that category, with threshold [BLOCK_MEDIUM_AND_ABOVE], and [IMAGE] is
    not among their response modalities. *)
Theorem safety_settings_cover_every_category
        (h : Host) (s : Scope) (id : string) (c : HarmCategory) :
  completion (providers h) = Normal s ->
  In id ["gemini-pro"; "gemini-2-5-flash-preview"; "gemini-2-5-pro-exp";
         "gemini-2-0-flash"] ->
  exists version b o m,
    model_of (googleClient s) version = Normal b /\
    wrapLanguageModel {| wrap_model := b;
                         wrap_middleware := middleware s;
                         wrap_providerOptions := Some o |} = Normal m /\
    get (languageModels s) id = Some m /\
    (exists st,
        In st (safetySettings (google o)) /\
        category st = c /\
        threshold st = BLOCK_MEDIUM_AND_ABOVE /\
        forall st', In st' (safetySettings (google o)) ->
                    category st' = c -> st' = st) /\
    ~ In IMAGE (responseModalities (google o)).
Proof.
  intros H Hid.
  assert (Cover :
    (exists st,
        In st (safetySettings (google google_options)) /\
        category st = c /\
        threshold st = BLOCK_MEDIUM_AND_ABOVE /\
        forall st', In st' (safetySettings (google google_options)) ->
                    category st' = c -> st' = st) /\
    ~ In IMAGE (responseModalities (google google_options))).
  { split; [|intros [E|[]]; discriminate E].
    exists {| category := c; threshold := BLOCK_MEDIUM_AND_ABOVE |}.
    split; [destruct c; simpl; auto 6|].
    split; [reflexivity|]. split; [reflexivity|].
    intros st' Hin E. simpl in Hin.
    destruct Hin as [<-|[<-|[<-|[<-|[]]]]]; simpl in E; now subst c. }
  destruct Cover as [Cov Txt].
  destruct (registry_calls h s H)
    as (m1 & m2 & b3 & m3 & m4 & b5 & m5 & b6 & m6 & b7 & m7 & b8 & m8
        & _ & _ & _ & _ & _ & Hb5 & Hm5 & Hb6 & Hm6 & Hb7 & Hm7 & Hb8
        & Hm8 & ->).
  simpl in Hid. destruct Hid as [<-|[<-|[<-|[<-|[]]]]].
  - exists "gemini-pro", b5, google_options, m5. now repeat split.
  - exists "gemini-2.5-flash-preview-04-17", b6, google_options, m6.
    now repeat split.
  - exists "gemini-2.5-pro-exp-03-25", b7, google_options, m7.
    now repeat split.
  - exists "gemini-2.0-flash", b8, google_options, m8. now repeat split.
Qed.

End RegistryShape.

(** ** More on the recorded registry *)

Section RecordedRegistry.
Import Recording.

(** X12. The catalog names the provider that serves the model: two
    identifiers have the same [provider] in the catalog exactly when their
    instances come from the same provider client. *)
Theorem catalog_provider_matches_client
        (h : Host) (s : @Scope Recording.sound)
        (id1 id2 : string) (m1 m2 : RModel) (i1 i2 : ModelInfo) :
  completion (providers h) = Normal s ->
  get (languageModels s) id1 = Some m1 ->
  get (languageModels s) id2 = Some m2 ->
  get (modelDetails s) id1 = Some i1 ->
  get (modelDetails s) id2 = Some i2 ->
  (provider i1 = provider i2 <-> familyOf m1 = familyOf m2).
Proof.
  intros H Hm1 Hm2 Hi1 Hi2. recorded H.
  let v := eval vm_compute in modelDetails_literal in
    change modelDetails_literal with v in Hi1, Hi2.
  by_identifier id1; try discriminate;
    injection Hm1 as <-; injection Hi1 as <-;
    by_identifier id2; try discriminate;
    injection Hm2 as <-; injection Hi2 as <-;
    simpl; split; intros E; try reflexivity; discriminate E.
Qed.

(** X15. No two identifiers address the same backend model: entries that
    were requested with the same version string belong to the same
    identifier. *)
Theorem backend_versions_distinct
        (h : Host) (s : @Scope Recording.sound)
        (id1 id2 : string) (m1 m2 : RModel) :
  completion (providers h) = Normal s ->
  get (languageModels s) id1 = Some m1 ->
  get (languageModels s) id2 = Some m2 ->
  backendVersion m1 = backendVersion m2 ->
  id1 = id2.
Proof.
  intros H Hm1 Hm2. recorded H.
  by_identifier id1; try discriminate; injection Hm1 as <-;
    by_identifier id2; try discriminate; injection Hm2 as <-;
    simpl; intros E; try reflexivity; discriminate E.
Qed.

End RecordedRegistry.

(** ** The further properties at the hosts of the examples *)

Lemma providers_effects_on_completion_witness :
  exists s,
    completion (@providers Recording.sound Examples.browser) = Normal s /\
    effects (@providers Recording.sound Examples.browser) =
    [ EnvRead "OPENAI_API_KEY"; EnvRead "OPENAI_API_KEY";
      EnvRead "ANTHROPIC_API_KEY"; StoreRead "ANTHROPIC_API_KEY";
      EnvRead "GROQ_API_KEY"; StoreRead "GROQ_API_KEY";
      EnvRead "XAI_API_KEY"; StoreRead "XAI_API_KEY";
      EnvRead "GOOGLE_GENERATIVE_AI_API_KEY";
      StoreRead "GOOGLE_GENERATIVE_AI_API_KEY";
      AddEventListener "storage" ].
Proof.
  eexists. split; [reflexivity|].
  exact (providers_effects_on_completion
           (sdk := Recording.sound) Examples.browser _ eq_refl).
Defined.

Lemma providers_failure_leaves_no_listener_witness :
  construction_fails (sdk := Recording.sdk Examples.groq_broken)
                     Examples.browser /\
  ~ In (AddEventListener "storage")
       (effects (@providers (Recording.sdk Examples.groq_broken)
                            Examples.browser)).
Proof.
  assert (F : construction_fails (sdk := Recording.sdk Examples.groq_broken)
                                 Examples.browser).
  { right; right; right; left. eexists. reflexivity. }
  split; [exact F|].
  exact (proj2 (providers_failure_leaves_no_listener
                  (sdk := Recording.sdk Examples.groq_broken)
                  Examples.browser) F "storage").
Defined.



Lemma clients_get_their_own_credentials_witness :
  exists s k3,
    completion (@providers Recording.sound Examples.browser) = Normal s /\
    completion (getApiKey Examples.browser "GROQ_API_KEY") = Normal k3 /\
    createGroq (SDK := Recording.sound) {| apiKey := k3; baseURL := None |}
    = Normal (groqClient s).
Proof.
  eexists.
  destruct (clients_get_their_own_credentials
              (sdk := Recording.sound) Examples.browser _ eq_refl)
    as (k1 & k2 & k3 & k4 & k5 & _ & _ & _ & _ & Hk & Hc & _).
  exists k3. split; [reflexivity|]. split; [exact Hk | exact Hc].
Defined.

Lemma credentials_read_trigger_reload_witness :
  In (StoreRead "GROQ_API_KEY")
     (effects (@providers Recording.sound Examples.browser)) /\
  effects (storageListener {| key := Some "GROQ_API_KEY";
                              oldValue := Some "gsk-store";
                              newValue := Some "gsk-new";
                              url := "http://localhost:3000/" |})
  = [Reload].
Proof.
  assert (R : In (StoreRead "GROQ_API_KEY")
                 (effects (@providers Recording.sound Examples.browser)))
    by (simpl; auto 10).
  split; [exact R|].
  apply (credentials_read_trigger_reload (sdk := Recording.sound)
           Examples.browser "GROQ_API_KEY").
  - right. exact R.
  - reflexivity.
Defined.

Lemma MODELS_are_the_registry_keys_witness :
  exists s,
    completion (@providers Recording.sound Examples.server) = Normal s /\
    NoDup (MODELS s) /\
    length (MODELS s) = length (languageModels s) /\
    forall id, In id (MODELS s) <->
               exists m, get (languageModels s) id = Some m.
Proof.
  eexists. split; [reflexivity|].
  apply (MODELS_are_the_registry_keys (sdk := Recording.sound)
           Examples.server).
  reflexivity.
Defined.

Lemma exports_do_not_depend_on_host_witness :
  exists s1 s2,
    completion (@providers Recording.sound Examples.browser) = Normal s1 /\
    completion (@providers (Recording.sdk (fun _ => false))
                           MoreExamples.bare) = Normal s2 /\
    MODELS s1 = MODELS s2 /\
    modelDetails s1 = modelDetails s2 /\
    defaultModel s1 = defaultModel s2.
Proof.
  do 2 eexists. split; [reflexivity|]. split; [reflexivity|].
  apply (exports_do_not_depend_on_host
           Recording.sound (Recording.sdk (fun _ => false))
           Examples.browser MoreExamples.bare);
    reflexivity.
Defined.

Lemma catalog_records_distinct_witness :
  exists i1 i2,
    get modelDetails_literal "gemini-pro" = Some i1 /\
    get modelDetails_literal "qwen-qwq" = Some i2 /\
    (name i1 = name i2 -> "gemini-pro" = "qwen-qwq") /\
    (apiVersion i1 = apiVersion i2 -> "gemini-pro" = "qwen-qwq") /\
    length (capabilities i1) = 3.
Proof.
  do 2 eexists. split; [reflexivity|]. split; [reflexivity|].
  apply (catalog_records_distinct "gemini-pro" "qwen-qwq"); reflexivity.
Defined.

Lemma wrapped_entries_and_options_witness :
  exists s,
    completion (@providers Recording.sound Examples.browser) = Normal s /\
    exists c version b o m,
      In c [groqClient s; googleClient s] /\
      model_of c version = Normal b /\
      wrapLanguageModel {| wrap_model := b;
                           wrap_middleware := middleware s;
                           wrap_providerOptions := o |} = Normal m /\
      get (languageModels s) "qwen-qwq" = Some m /\
      (o = None <-> "qwen-qwq" = "qwen-qwq").
Proof.
  eexists. split; [reflexivity|].
  apply (proj2 (wrapped_entries_and_options
                  (sdk := Recording.sound) Examples.browser _ eq_refl)
               "qwen-qwq").
  simpl. auto.
Defined.

Lemma catalog_provider_matches_client_witness :
  exists s m1 m2 i1 i2,
    completion (@providers Recording.sound Examples.browser) = Normal s /\
    get (languageModels s) "gemini-pro" = Some m1 /\
    get (languageModels s) "gemini-2-0-flash" = Some m2 /\
    get (modelDetails s) "gemini-pro" = Some i1 /\
    get (modelDetails s) "gemini-2-0-flash" = Some i2 /\
    (provider i1 = provider i2 <->
     Recording.familyOf m1 = Recording.familyOf m2).
Proof.
  do 5 eexists.
  split; [reflexivity|]. split; [reflexivity|]. split; [reflexivity|].
  split; [reflexivity|]. split; [reflexivity|].
  eapply (catalog_provider_matches_client Examples.browser)
    with (id1 := "gemini-pro") (id2 := "gemini-2-0-flash");
    reflexivity.
Defined.

Lemma backend_versions_distinct_witness :
  exists s m,
    completion (@providers Recording.sound Examples.browser) = Normal s /\
    get (languageModels s) "grok-3-mini" = Some m /\
    "grok-3-mini" = "grok-3-mini".
Proof.
  do 2 eexists. split; [reflexivity|]. split; [reflexivity|].
  eapply (backend_versions_distinct Examples.browser); reflexivity.
Defined.

Lemma safety_settings_cover_every_category_witness :
  exists s,
    completion (@providers Recording.sound Examples.browser) = Normal s /\
    exists version b o m,
      model_of (googleClient s) version = Normal b /\
      wrapLanguageModel {| wrap_model := b;
                           wrap_middleware := middleware s;
                           wrap_providerOptions := Some o |} = Normal m /\
      get (languageModels s) "gemini-2-0-flash" = Some m /\
      (exists st,
          In st (safetySettings (google o)) /\
          category st = HARM_CATEGORY_HARASSMENT /\
          threshold st = BLOCK_MEDIUM_AND_ABOVE /\
          forall st', In st' (safetySettings (google o)) ->
                      category st' = HARM_CATEGORY_HARASSMENT ->
                      st' = st) /\
      ~ In IMAGE (responseModalities (google o)).
Proof.
  eexists. split; [reflexivity|].
  apply (safety_settings_cover_every_category
           (sdk := Recording.sound) Examples.browser _
           "gemini-2-0-flash" HARM_CATEGORY_HARASSMENT eq_refl).
  simpl. auto.
Defined.
